(** * azor-chatdog: interactive configuration prompts and the LlamaConfig schema

    A shallow embedding of
      - [src/cli/interactive_config.py]: [ask_yes_no], [ask_float], [ask_int],
        [ask_for_generation_params], [ask_for_model_choice];
      - [src/llm/llama_validation.py]: the pydantic model [LlamaConfig] with its
        field constraints and its [validate_model_path] validator.

    Python values are modelled as follows.
      - [str]: Rocq [string], one [ascii] per code point, so the lines that are
        inspected range over the code points below 256; [str.strip],
        [str.lower] and [str.endswith] are written out on that range.  The
        texts the program only prints are payloads, kept as the source file
        spells them (escape sequences included), and are never inspected.
      - [float]: the binary64 numbers of [PrimFloat], compared with the IEEE
        comparison [PrimFloat.leb] (a NaN compares false with everything).
      - [int]: [Z].
      - [input()] and the console: a world holding the lines still to be read
        and the events emitted so far; reading from an exhausted stream raises
        [EOFError], which none of the loops catches.
      - the builtins [float(s)], [int(s)], [os.path.exists] and
        [os.path.expanduser] are parameters of the development. *)

From Stdlib Require Import ZArith List Bool Ascii String Floats Lia.
Import ListNotations.

(* Decimal literals denote the nearest binary64 number, as they do in Python. *)
Set Warnings "-inexact-float".

Local Open Scope string_scope.
Local Open Scope bool_scope.

(** ** Python string builtins used by the source *)

Module PyStr.

(** [str.isspace] on one code point below 256: TAB..CR, FS..US, space,
    NEL (0x85) and NBSP (0xA0). *)
Definition isspace (c : ascii) : bool :=
  let n := N_of_ascii c in
  ((9 <=? n) && (n <=? 13) || (28 <=? n) && (n <=? 32)
   || (n =? 133) || (n =? 160))%N.

(** [str.lower] on one code point below 256: A..Z and the Latin-1 capitals
    0xC0..0xDE (the multiplication sign 0xD7 apart) move up by 32. *)
Definition lower_char (c : ascii) : ascii :=
  let n := N_of_ascii c in
  if ((65 <=? n) && (n <=? 90)
      || (192 <=? n) && (n <=? 222) && negb (n =? 215))%N
  then ascii_of_N (n + 32) else c.

Fixpoint lower (s : string) : string :=
  match s with
  | EmptyString => EmptyString
  | String c s' => String (lower_char c) (lower s')
  end.

Fixpoint lstrip (s : string) : string :=
  match s with
  | EmptyString => EmptyString
  | String c s' => if isspace c then lstrip s' else s
  end.

Fixpoint rstrip (s : string) : string :=
  match s with
  | EmptyString => EmptyString
  | String c s' =>
      match rstrip s' with
      | EmptyString => if isspace c then EmptyString else String c EmptyString
      | r => String c r
      end
  end.

(** [s.strip()] *)
Definition strip (s : string) : string := rstrip (lstrip s).

(** Every character of [s] is whitespace. *)
Fixpoint all_space (s : string) : bool :=
  match s with
  | EmptyString => true
  | String c s' => isspace c && all_space s'
  end.

(** [s.endswith(suffix)] *)
Definition endswith (s suffix : string) : bool :=
  let n := String.length s in
  let m := String.length suffix in
  (m <=? n)%nat && (substring (n - m) m s =? suffix).

(** [x in [a, b, ...]] for a list of strings. *)
Definition str_in (x : string) (l : list string) : bool :=
  existsb (String.eqb x) l.

(** [not s]: the truth value of a string is its non-emptiness. *)
Definition is_empty (s : string) : bool :=
  match s with EmptyString => true | _ => false end.

(** [c * n] for a one-character string. *)
Fixpoint repeat_str (s : string) (n : nat) : string :=
  match n with
  | O => EmptyString
  | S k => s ++ repeat_str s k
  end.

End PyStr.

(** ** Console, standard input and the prompt loops' effects *)

Module Console.

(** The pieces of an f-string: literal text and formatted values. *)
Inductive piece : Type :=
| Lit (s : string)
| FloatV (f : float)
| IntV (z : Z).

Definition text := list piece.

(** What the program does to the terminal, in order. *)
Inductive event : Type :=
| Prompt (t : text)         (* the prompt written by [input(t)] *)
| print_info (t : text)     (* [console.print_info(t)] *)
| print_error (t : text).   (* [console.print_error(t)] *)

Record world : Type := mkWorld {
  stdin : list string;      (* lines not yet read, without their newline *)
  console : list event      (* events emitted so far, oldest first *)
}.

(** A call either returns a value or raises [EOFError] out of [input()]. *)
Inductive outcome (A : Type) : Type :=
| Return (a : A)
| EOFError.
Arguments Return {A} a.
Arguments EOFError {A}.

Definition M (A : Type) : Type := world -> outcome A * world.

Definition ret {A} (a : A) : M A := fun w => (Return a, w).

Definition bind {A B} (m : M A) (k : A -> M B) : M B :=
  fun w =>
    match m w with
    | (Return a, w') => k a w'
    | (EOFError, w') => (EOFError, w')
    end.

Definition emit (e : event) : M unit :=
  fun w => (Return tt, mkWorld (stdin w) (console w ++ [e])).

Definition info (t : text) : M unit := emit (print_info t).
Definition error (t : text) : M unit := emit (print_error t).

(** Several events in a row. *)
Definition emits (evs : list event) : M unit :=
  fun w => (Return tt, mkWorld (stdin w) (console w ++ evs)).

(** [input(p)]: write the prompt, read one line. *)
Definition input (p : text) : M string :=
  fun w =>
    match stdin w with
    | [] => (EOFError, mkWorld [] (console w ++ [Prompt p]))
    | l :: ls => (Return l, mkWorld ls (console w ++ [Prompt p]))
    end.

(** The shape shared by the four loops of the source:
    [while True: answer = input(p); <body>].  [body l] is the rest of the
    loop body run on the line [l]: the events it prints, and [Some v] when
    it leaves through [return v], [None] when it falls off its end and the
    loop goes round again.  The recursion is on the lines still to be
    read. *)
Fixpoint while_true {A} (p : text) (body : string -> list event * option A)
         (lines : list string) (out : list event) : outcome A * world :=
  match lines with
  | [] => (EOFError, mkWorld [] (out ++ [Prompt p]))
  | l :: rest =>
      match body l with
      | (evs, Some v) => (Return v, mkWorld rest (out ++ Prompt p :: evs))
      | (evs, None) => while_true p body rest (out ++ Prompt p :: evs)
      end
  end.

Definition loop {A} (p : text) (body : string -> list event * option A)
  : M A :=
  fun w => while_true p body (stdin w) (console w).

End Console.

Import PyStr Console.

Declare Scope io_scope.
Delimit Scope io_scope with io.
Notation "x <- m ;; k" := (bind m (fun x => k))
  (at level 61, m at next level, right associativity) : io_scope.
Notation "m ;; k" := (bind m (fun _ => k))
  (at level 61, right associativity) : io_scope.

(** ** [cli/interactive_config.py] *)

Section InteractiveConfig.

(** The builtins [float(s)] and [int(s)]: [None] stands for [ValueError]. *)
Variable float_of_str : string -> option float.
Variable int_of_str : string -> option Z.

(** [os.path.exists] and [os.path.expanduser].  Here [os_path_exists] is
    one state of the file system, the same at every read of it; the file
    system as it changes while the program waits for its input is taken up
    by [ask_for_model_choice_over] below. *)
Variable os_path_exists : string -> bool.
Variable expanduser : string -> string.

(** [min_val <= value <= max_val] on floats. *)
Definition float_between (min_val value max_val : float) : bool :=
  PrimFloat.leb min_val value && PrimFloat.leb value max_val.

(** *** [ask_yes_no] *)

Definition yes_tokens : list string := ["t"; "tak"; "y"; "yes"].
Definition no_tokens : list string := ["n"; "nie"; "no"].

Definition yes_no_error : text :=
  [Lit "Proszę odpowiedzieć 't' (tak) lub 'n' (nie)"].

Definition yes_no_prompt (question : string) (default : bool) : text :=
  let default_str := if default then "T/n" else "t/N" in
  [Lit question; Lit " ["; Lit default_str; Lit "]: "].

Definition ask_yes_no_body (default : bool) (line : string)
  : list event * option bool :=
  let answer := lower (strip line) in
  if is_empty answer then ([], Some default)
  else if str_in answer yes_tokens then ([], Some true)
  else if str_in answer no_tokens then ([], Some false)
  else ([print_error yes_no_error], None).

Definition ask_yes_no (question : string) (default : bool) : M bool :=
  loop (yes_no_prompt question default) (ask_yes_no_body default).

(** *** [ask_float] *)

Definition float_prompt (question : string) (default : float) : text :=
  [Lit question; Lit " ["; FloatV default; Lit "]: "].

Definition float_range_error (min_val max_val : float) : text :=
  [Lit "Wartość musi być między "; FloatV min_val; Lit " a "; FloatV max_val].

Definition float_parse_error : text := [Lit "Proszę podać poprawną liczbę"].

Definition ask_float_body (default min_val max_val : float) (line : string)
  : list event * option float :=
  let answer := strip line in
  if is_empty answer then ([], Some default)
  else
    match float_of_str answer with
    | Some value =>
        if float_between min_val value max_val then ([], Some value)
        else ([print_error (float_range_error min_val max_val)], None)
    | None => ([print_error float_parse_error], None)
    end.

Definition ask_float (question : string) (default min_val max_val : float)
  : M float :=
  loop (float_prompt question default) (ask_float_body default min_val max_val).

(** *** [ask_int] *)

Definition int_prompt (question : string) (default : Z) : text :=
  [Lit question; Lit " ["; IntV default; Lit "]: "].

Definition int_range_error (min_val : Z) : text :=
  [Lit "Wartość musi być >= "; IntV min_val].

Definition int_parse_error : text :=
  [Lit "Proszę podać poprawną liczbę całkowitą"].

Definition ask_int_body (default min_val : Z) (line : string)
  : list event * option Z :=
  let answer := strip line in
  if is_empty answer then ([], Some default)
  else
    match int_of_str answer with
    | Some value =>
        if (value >=? min_val)%Z then ([], Some value)
        else ([print_error (int_range_error min_val)], None)
    | None => ([print_error int_parse_error], None)
    end.

Definition ask_int (question : string) (default min_val : Z) : M Z :=
  loop (int_prompt question default) (ask_int_body default min_val).

(** *** [ask_for_generation_params] *)

(** The returned dict, with its three fixed keys. *)
Record GenerationParams : Type := mkParams {
  temperature : float;
  top_p : float;
  top_k : Z
}.

(** A run of [console.print_info] calls on fixed lines. *)
Fixpoint infos (ls : list text) : M unit :=
  match ls with
  | [] => ret tt
  | t :: ts => (info t ;; infos ts)%io
  end.

Definition params_header : list text :=
  [ [Lit "\n🎛️  Konfiguracja parametrów generowania"];
    [Lit (repeat_str "=" 50)] ].

Definition params_explanation : list text :=
  [ [Lit "\n📝 Wyjaśnienie parametrów:"];
    [Lit "  • Temperature (0.0-2.0): Kontroluje losowość/kreatywność"];
    [Lit "    - 0.0-0.3: Bardzo deterministyczne, powtarzalne odpowiedzi"];
    [Lit "    - 0.5-0.7: Zrównoważone (zalecane)"];
    [Lit "    - 0.8-1.5: Bardziej kreatywne i zróżnicowane"];
    [Lit "    - 1.5-2.0: Bardzo kreatywne, czasem chaotyczne"];
    [Lit "\n  • Top P (0.0-1.0): Nucleus sampling"];
    [Lit "    - 0.9-0.95: Zalecane dla większości przypadków"];
    [Lit "    - Niższe wartości = bardziej konserwatywne odpowiedzi"];
    [Lit "\n  • Top K (0+): Liczba najlepszych tokenów do rozważenia"];
    [Lit "    - 40-50: Dobry kompromis (zalecane)"];
    [Lit "    - 0: Wyłączone (używa tylko Top P)"];
    [Lit ("\n" ++ repeat_str "=" 50)] ].

Definition params_summary (temperature top_p : float) (top_k : Z) : list text :=
  [ [Lit "\n✅ Wybrane parametry:"];
    [Lit "   Temperature: "; FloatV temperature];
    [Lit "   Top P: "; FloatV top_p];
    [Lit "   Top K: "; IntV top_k];
    [Lit (repeat_str "=" 50 ++ "\n")] ].

Definition configure_question : string :=
  "\nCzy chcesz skonfigurować parametry generowania?".

Definition ask_for_generation_params
  (current_temp current_top_p : float) (current_top_k : Z)
  : M GenerationParams :=
  (infos params_header ;;
   configure <- ask_yes_no configure_question false ;;
   if negb configure then
     info [Lit "Używam domyślnych parametrów..."] ;;
     ret (mkParams current_temp current_top_p current_top_k)
   else
     infos params_explanation ;;
     temperature <- ask_float "\n🌡️  Temperature (kreatywność)"
                              current_temp 0.0 2.0 ;;
     top_p <- ask_float "🎯 Top P (nucleus sampling)"
                        current_top_p 0.0 1.0 ;;
     top_k <- ask_int "🔢 Top K (liczba tokenów, 0=wyłączone)"
                      current_top_k 0 ;;
     infos (params_summary temperature top_p top_k) ;;
     ret (mkParams temperature top_p top_k))%io.

(** *** [ask_for_model_choice] *)

Record Model : Type := mkModel {
  name : string;
  path : string;
  size : string;
  speed : string;
  quality : string
}.

(** A dict with string keys, in insertion order. *)
Definition dict := list (string * Model).

(** [d[k]]; [None] stands for [KeyError]. *)
Fixpoint lookup (k : string) (d : dict) : option Model :=
  match d with
  | [] => None
  | (k', m) :: d' => if k =? k' then Some m else lookup k d'
  end.

(** [k in d] *)
Definition contains (k : string) (d : dict) : bool :=
  match lookup k d with Some _ => true | None => false end.

Fixpoint insert_sorted (k : string) (ks : list string) : list string :=
  match ks with
  | [] => [k]
  | k' :: ks' => if String.leb k k' then k :: ks else k' :: insert_sorted k ks'
  end.

(** [sorted(ks)] *)
Definition sorted (ks : list string) : list string :=
  fold_right insert_sorted [] ks.

Definition models : dict :=
  [ ("1", mkModel "Gemma 3 1B Q4_K_M"
            (expanduser "~/Library/Caches/llama.cpp/ggml-org_gemma-3-1b-it-GGUF_gemma-3-1b-it-Q4_K_M.gguf")
            "~600MB RAM" "⚡⚡⚡ Bardzo szybki" "⭐⭐⭐ Dobra jakość");
    ("2", mkModel "Gemma 2 2B Q8_0"
            (expanduser "~/models/gemma-2-2b-it-Q8_0.gguf")
            "~2.3GB RAM" "⚡⚡ Szybki" "⭐⭐⭐⭐ Bardzo dobra jakość");
    ("3", mkModel "Llama 3.1 8B Q4_K_M"
            (expanduser "~/models/Meta-Llama-3.1-8B-Instruct-Q4_K_M.gguf")
            "~5GB RAM" "⚡ Wolniejszy" "⭐⭐⭐⭐⭐ Najlepsza jakość") ].

(** The entries of [models] whose file exists, in the order of [models]. *)
Definition available_models : dict :=
  filter (fun km => os_path_exists (path (snd km))) models.

Definition choice_header : list text :=
  [ [Lit "\n🤖 Wybór modelu LLM"]; [Lit (repeat_str "=" 60)] ].

(** The five lines printed for one available entry; the keys come from the
    dict itself, so the lookup cannot raise. *)
Definition model_lines (available : dict) (key : string) : list text :=
  match lookup key available with
  | Some model =>
      [ [Lit "  ["; Lit key; Lit "] "; Lit (name model)];
        [Lit "      • RAM: "; Lit (size model)];
        [Lit "      • Szybkość: "; Lit (speed model)];
        [Lit "      • Jakość: "; Lit (quality model)];
        [Lit ""] ]
  | None => []
  end.

Definition choice_menu (available : dict) : list text :=
  [Lit "\nDostępne modele:\n"]
  :: flat_map (model_lines available) (sorted (map fst available))
  ++ [ [Lit "  [0] Użyj domyślnego z .env"]; [Lit (repeat_str "=" 60)] ].

Definition choice_prompt : text := [Lit "\nWybierz model [0-3]: "].

Definition missing_model_errors (p : string) : list event :=
  [ print_error [Lit "❌ Model nie istnieje: "; Lit p];
    print_error [Lit "   Pobierz go najpierw lub wybierz inny model."] ].

Definition invalid_choice_error : event :=
  print_error [Lit "Nieprawidłowy wybór. Wybierz 0-3."].

Definition choice_body (available : dict) (line : string)
  : list event * option (option (string * string)) :=
  let choice := strip line in
  if choice =? "0" then
    ([print_info [Lit "Używam domyślnego modelu z .env..."]], Some None)
  else
    match lookup choice available with
    | Some selected =>
        ([print_info [Lit "\n✅ Wybrano: "; Lit (name selected)]],
         Some (Some (path selected, name selected)))
    | None =>
        match lookup choice models with
        | Some m =>
            if negb (os_path_exists (path m))
            then (missing_model_errors (path m), None)
            else ([invalid_choice_error], None)
        | None => ([invalid_choice_error], None)
        end
    end.

Definition ask_for_model_choice : M (option (string * string)) :=
  (infos choice_header ;;
   let available := available_models in
   match available with
   | [] =>
       error [Lit "⚠️  Nie znaleziono żadnych modeli!"] ;;
       info [Lit "Używam domyślnego z .env..."] ;;
       ret None
   | _ :: _ =>
       infos (choice_menu available) ;;
       loop choice_prompt (choice_body available)
   end)%io.

End InteractiveConfig.

(** *** [ask_for_model_choice] on a file system that changes

    The function reads the file system at two kinds of moments: once when it
    filters the catalogue, before any line is read, and once more at each
    choice that is a key of the catalogue but not of the available entries,
    after [input()] has returned.  Other programs may create or remove files
    while [input()] blocks, so the two reads need not agree.  Below, [fs t]
    is the state of the file system once [t] lines of the choice have been
    read: [fs 0] is what the filter sees, and [fs (S t)] what the body of
    the loop sees on the line read after [t] others. *)

Section ChangingFileSystem.

Variable fs : nat -> string -> bool.
Variable expanduser : string -> string.

(** The loop of [ask_for_model_choice], [time] lines having been read. *)
Fixpoint choose_over (available : dict) (time : nat) (lines : list string)
         (out : list event) : outcome (option (string * string)) * world :=
  match lines with
  | [] => (EOFError, mkWorld [] (out ++ [Prompt choice_prompt]))
  | l :: rest =>
      match choice_body (fs (S time)) expanduser available l with
      | (evs, Some v) =>
          (Return v, mkWorld rest (out ++ Prompt choice_prompt :: evs))
      | (evs, None) =>
          choose_over available (S time) rest (out ++ Prompt choice_prompt :: evs)
      end
  end.

Definition ask_for_model_choice_over : M (option (string * string)) :=
  (infos choice_header ;;
   let available := available_models (fs 0) expanduser in
   match available with
   | [] =>
       error [Lit "⚠️  Nie znaleziono żadnych modeli!"] ;;
       info [Lit "Używam domyślnego z .env..."] ;;
       ret None
   | _ :: _ =>
       infos (choice_menu available) ;;
       fun w => choose_over available 0 (stdin w) (console w)
   end)%io.

End ChangingFileSystem.

(** ** [llm/llama_validation.py] *)

Section LlamaValidation.

Variable os_path_exists : string -> bool.

(** The keyword arguments given to [LlamaConfig(...)], already of the
    fields' types; [None] is an argument left out.  The coercion the library
    applies to arguments of other types (a numeric string, a float for an
    int field) comes before the checks below and is not modelled. *)
Record RawConfig : Type := mkRaw {
  raw_engine : option string;
  raw_model_name : option string;
  raw_llama_model_path : option string;
  raw_llama_gpu_layers : option Z;
  raw_llama_context_size : option Z;
  raw_llama_temperature : option float;
  raw_llama_top_p : option float;
  raw_llama_top_k : option Z
}.

(** The validated record. *)
Record LlamaConfig : Type := mkConfig {
  engine : string;
  model_name : string;
  llama_model_path : string;
  llama_gpu_layers : Z;
  llama_context_size : Z;
  llama_temperature : float;
  llama_top_p : float;
  llama_top_k : Z
}.

(** What one field can fail with. *)
Inductive field_error : Type :=
| missing                       (* a required field ([Field(...)]) left out *)
| literal_error                 (* not the one value of a [Literal] *)
| int_not_ge (limit : Z)        (* [ge=] on an int *)
| float_not_ge (limit : float)  (* [ge=] on a float *)
| float_not_le (limit : float)  (* [le=] on a float *)
| value_error (msg : text).     (* [ValueError] raised by a validator *)

(** [ValidationError]: the failed fields by name, in field order. *)
Definition ValidationError := list (string * field_error).

Definition checked (A : Type) : Type := field_error + A.

Definition required {A} (r : option A) : checked A :=
  match r with Some v => inr v | None => inl missing end.

Definition with_default {A} (d : A) (r : option A) : A :=
  match r with Some v => v | None => d end.

(** [Literal["LLAMA"]] *)
Definition check_literal (lit v : string) : checked string :=
  if v =? lit then inr v else inl literal_error.

(** [Field(ge=limit)] on an int: fails when [not v >= limit]. *)
Definition check_int_ge (limit v : Z) : checked Z :=
  if (v >=? limit)%Z then inr v else inl (int_not_ge limit).

(** [Field(ge=lo, le=hi)] on a float.  For a number at most one of the two
    bounds fails, since [lo <= hi] in every declaration; the order of the
    two tests only decides which bound is reported for a NaN, on which the
    releases of the library differ, and no property below depends on it. *)
Definition check_float_range (lo hi v : float) : checked float :=
  if negb (PrimFloat.leb lo v) then inl (float_not_ge lo)
  else if negb (PrimFloat.leb v hi) then inl (float_not_le hi)
  else inr v.

(** [@validator('llama_model_path') def validate_model_path(cls, v)] *)
Definition validate_model_path (v : string) : checked string :=
  if negb (os_path_exists v) then
    inl (value_error [Lit "Plik modelu nie istnieje: "; Lit v])
  else if negb (endswith v ".gguf") then
    inl (value_error [Lit "Plik modelu musi mieć rozszerzenie .gguf"])
  else inr v.

Definition then_check {A} (c : checked A) (f : A -> checked A) : checked A :=
  match c with inr v => f v | inl e => inl e end.

(** The value of a field that passed its checks. *)
Definition value {A} (c : checked A) : option A :=
  match c with inr v => Some v | inl _ => None end.

Notation "x <- m ;; k" := (match m with Some x => k | None => None end)
  (at level 61, m at next level, right associativity, only parsing).

(** The error of one field, under its name, if it has one. *)
Definition field_errors {A} (field : string) (c : checked A) : ValidationError :=
  match c with inl e => [(field, e)] | inr _ => [] end.

(** Constructing [LlamaConfig] from keyword arguments: every field is validated in declaration order, a
    field stops at its first failed check, and the record is built only when
    no field failed. *)
Definition LlamaConfig_new (raw : RawConfig) : ValidationError + LlamaConfig :=
  let c_engine := check_literal "LLAMA" (with_default "LLAMA" (raw_engine raw)) in
  let c_name := required (raw_model_name raw) in
  let c_path := then_check (required (raw_llama_model_path raw)) validate_model_path in
  let c_gpu := check_int_ge (-1) (with_default 1%Z (raw_llama_gpu_layers raw)) in
  let c_ctx := check_int_ge 1 (with_default 2048%Z (raw_llama_context_size raw)) in
  let c_temp := check_float_range 0.0 2.0 (with_default 0.7%float (raw_llama_temperature raw)) in
  let c_top_p := check_float_range 0.0 1.0 (with_default 0.9%float (raw_llama_top_p raw)) in
  let c_top_k := check_int_ge 0 (with_default 40%Z (raw_llama_top_k raw)) in
  let errors :=
   (field_errors "engine" c_engine
    ++ field_errors "model_name" c_name
    ++ field_errors "llama_model_path" c_path
    ++ field_errors "llama_gpu_layers" c_gpu
    ++ field_errors "llama_context_size" c_ctx
    ++ field_errors "llama_temperature" c_temp
    ++ field_errors "llama_top_p" c_top_p
    ++ field_errors "llama_top_k" c_top_k)%list in
  let built :=
    e <- value c_engine ;; n <- value c_name ;; p <- value c_path ;;
    g <- value c_gpu ;; c <- value c_ctx ;; t <- value c_temp ;;
    tp <- value c_top_p ;; tk <- value c_top_k ;;
    Some (mkConfig e n p g c t tp tk) in
  match built with
  | Some config => inr config
  | None => inl errors
  end.

(** The same arguments with one of them replaced. *)
Definition set_temperature (t : float) (raw : RawConfig) : RawConfig :=
  mkRaw (raw_engine raw) (raw_model_name raw) (raw_llama_model_path raw)
        (raw_llama_gpu_layers raw) (raw_llama_context_size raw)
        (Some t) (raw_llama_top_p raw) (raw_llama_top_k raw).

Definition set_gpu_layers (g : Z) (raw : RawConfig) : RawConfig :=
  mkRaw (raw_engine raw) (raw_model_name raw) (raw_llama_model_path raw)
        (Some g) (raw_llama_context_size raw)
        (raw_llama_temperature raw) (raw_llama_top_p raw) (raw_llama_top_k raw).

Definition set_model_path (p : string) (raw : RawConfig) : RawConfig :=
  mkRaw (raw_engine raw) (raw_model_name raw) (Some p)
        (raw_llama_gpu_layers raw) (raw_llama_context_size raw)
        (raw_llama_temperature raw) (raw_llama_top_p raw) (raw_llama_top_k raw).

End LlamaValidation.

(** ** Vocabulary of the specification *)

(** [a] and [b] have the same length and agree character by character up to
    the case of the letters A..Z. *)
Definition same_char_ignoring_case (a b : ascii) : bool :=
  let x := N_of_ascii a in
  let y := N_of_ascii b in
  ((x =? y)
   || (97 <=? x) && (x <=? 122) && (y =? x - 32)
   || (97 <=? y) && (y <=? 122) && (x =? y - 32))%N.

Fixpoint same_ignoring_case (a b : string) : bool :=
  match a, b with
  | EmptyString, EmptyString => true
  | String x a', String y b' =>
      same_char_ignoring_case x y && same_ignoring_case a' b'
  | _, _ => false
  end.

(** [line] is one of [tokens] up to letter case, possibly surrounded by
    whitespace. *)
Definition is_token (tokens : list string) (line : string) : bool :=
  existsb (fun t => same_ignoring_case t (strip line)) tokens.

(** [t] is written with the letters a..z only. *)
Definition lowercase_letter (c : ascii) : bool :=
  let n := N_of_ascii c in ((97 <=? n) && (n <=? 122))%N.

Fixpoint lowercase_word (t : string) : bool :=
  match t with
  | EmptyString => true
  | String c t' => lowercase_letter c && lowercase_word t'
  end.

Section Vocabulary.

Variable float_of_str : string -> option float.
Variable int_of_str : string -> option Z.

(** The number typed on [line], when it parses and lies in
    [[min_val, max_val]]. *)
Definition float_typed (min_val max_val : float) (line : string) : option float :=
  match float_of_str (strip line) with
  | Some v => if float_between min_val v max_val then Some v else None
  | None => None
  end.

(** The integer typed on [line], when it parses and is at least [min_val]. *)
Definition int_typed (min_val : Z) (line : string) : option Z :=
  match int_of_str (strip line) with
  | Some v => if (min_val <=? v)%Z then Some v else None
  | None => None
  end.

(** The error message a line that is not accepted is answered with. *)
Definition float_rejection (min_val max_val : float) (line : string) : text :=
  match float_of_str (strip line) with
  | Some _ => float_range_error min_val max_val
  | None => float_parse_error
  end.

Definition int_rejection (min_val : Z) (line : string) : text :=
  match int_of_str (strip line) with
  | Some _ => int_range_error min_val
  | None => int_parse_error
  end.

(** What the console receives for a run of lines that are each answered
    with an error message: the prompt and the message, line after line. *)
Definition float_retries (question : string) (default min_val max_val : float)
  (pre : list string) : list event :=
  flat_map (fun l => [Prompt (float_prompt question default);
                      print_error (float_rejection min_val max_val l)]) pre.

Definition int_retries (question : string) (default min_val : Z)
  (pre : list string) : list event :=
  flat_map (fun l => [Prompt (int_prompt question default);
                      print_error (int_rejection min_val l)]) pre.

End Vocabulary.

(** [0.0 <= t <= 2.0], [0.0 <= p <= 1.0] and [k >= 0]. *)
Definition params_in_range (r : GenerationParams) : Prop :=
  float_between 0.0 (temperature r) 2.0 = true
  /\ float_between 0.0 (top_p r) 1.0 = true
  /\ (0 <= top_k r)%Z.

(** Whether a construction produced a record. *)
Definition accepted {E A} (r : E + A) : bool :=
  match r with inr _ => true | inl _ => false end.

(** ** Vocabulary of the further properties *)

(** The number of prompts among some events. *)
Fixpoint prompts (evs : list event) : nat :=
  match evs with
  | [] => 0
  | Prompt _ :: evs' => S (prompts evs')
  | _ :: evs' => prompts evs'
  end.

(** The read that found the input exhausted, when a call ended that way. *)
Definition failed_reads {A} (r : outcome A) : nat :=
  match r with Return _ => 0 | EOFError => 1 end.

(** A call keeps to the stream discipline when, however it ends, it has
    consumed a prefix of the input, has only added to the console, and has
    printed exactly one prompt for each read: one per line consumed, and one
    more for a read that raised [EOFError]. *)
Definition stream_discipline {A} (m : M A) : Prop :=
  forall w r w',
    m w = (r, w') ->
    exists consumed printed,
      stdin w = (consumed ++ stdin w')%list
      /\ console w' = (console w ++ printed)%list
      /\ prompts printed = List.length consumed + failed_reads r.

(** What a line answers the yes/no prompt with: the default when it is
    empty, true or false when it is one of the tokens, nothing otherwise. *)
Definition yes_no_answer (default : bool) (line : string) : option bool :=
  if is_empty (strip line) then Some default
  else if is_token yes_tokens line then Some true
  else if is_token no_tokens line then Some false
  else None.

Definition yes_no_retries (question : string) (default : bool)
  (pre : list string) : list event :=
  flat_map (fun _ : string => [Prompt (yes_no_prompt question default);
                               print_error yes_no_error]) pre.

Section Answers.

Variable float_of_str : string -> option float.
Variable int_of_str : string -> option Z.

(** What a line answers the bounded float prompt with: the default when it
    is empty, else the number typed when that is accepted. *)
Definition float_answer (default min_val max_val : float) (line : string)
  : option float :=
  if is_empty (strip line) then Some default
  else float_typed float_of_str min_val max_val line.

Definition int_answer (default min_val : Z) (line : string) : option Z :=
  if is_empty (strip line) then Some default
  else int_typed int_of_str min_val line.

End Answers.

(** The arguments that spell out every field of a record. *)
Definition raw_of_config (c : LlamaConfig) : RawConfig :=
  mkRaw (Some (engine c)) (Some (model_name c)) (Some (llama_model_path c))
        (Some (llama_gpu_layers c)) (Some (llama_context_size c))
        (Some (llama_temperature c)) (Some (llama_top_p c))
        (Some (llama_top_k c)).

Definition set_top_p (p : float) (raw : RawConfig) : RawConfig :=
  mkRaw (raw_engine raw) (raw_model_name raw) (raw_llama_model_path raw)
        (raw_llama_gpu_layers raw) (raw_llama_context_size raw)
        (raw_llama_temperature raw) (Some p) (raw_llama_top_k raw).

Definition set_top_k (k : Z) (raw : RawConfig) : RawConfig :=
  mkRaw (raw_engine raw) (raw_model_name raw) (raw_llama_model_path raw)
        (raw_llama_gpu_layers raw) (raw_llama_context_size raw)
        (raw_llama_temperature raw) (raw_llama_top_p raw) (Some k).

(** The arguments of the record built from interactively collected
    parameters. *)
Definition set_generation_params (r : GenerationParams) (raw : RawConfig)
  : RawConfig :=
  set_top_k (top_k r) (set_top_p (top_p r) (set_temperature (temperature r) raw)).

(** The errors of all the fields of a construction, in declaration order:
    what [ValidationError] carries when there is one. *)
Definition reported_errors (os_path_exists : string -> bool) (raw : RawConfig)
  : ValidationError :=
  (field_errors "engine"
     (check_literal "LLAMA" (with_default "LLAMA" (raw_engine raw)))
   ++ field_errors "model_name" (required (raw_model_name raw))
   ++ field_errors "llama_model_path"
        (then_check (required (raw_llama_model_path raw))
                    (validate_model_path os_path_exists))
   ++ field_errors "llama_gpu_layers"
        (check_int_ge (-1) (with_default 1%Z (raw_llama_gpu_layers raw)))
   ++ field_errors "llama_context_size"
        (check_int_ge 1 (with_default 2048%Z (raw_llama_context_size raw)))
   ++ field_errors "llama_temperature"
        (check_float_range 0.0 2.0
           (with_default 0.7%float (raw_llama_temperature raw)))
   ++ field_errors "llama_top_p"
        (check_float_range 0.0 1.0
           (with_default 0.9%float (raw_llama_top_p raw)))
   ++ field_errors "llama_top_k"
        (check_int_ge 0 (with_default 40%Z (raw_llama_top_k raw))))%list.

(** The construction fails, and the error [e] of the field [field] is among
    those it reports. *)
Definition fails_with (os_path_exists : string -> bool) (raw : RawConfig)
  (field : string) (e : field_error) : Prop :=
  exists errors,
    LlamaConfig_new os_path_exists raw = inl errors /\ In (field, e) errors.

(** The fields of [LlamaConfig], in declaration order. *)
Definition field_names : list string :=
  [ "engine"; "model_name"; "llama_model_path"; "llama_gpu_layers";
    "llama_context_size"; "llama_temperature"; "llama_top_p"; "llama_top_k" ].

(** [names] lists some of [all], each once, in the order of [all]. *)
Fixpoint in_order (names all : list string) : bool :=
  match names, all with
  | [], _ => true
  | _ :: _, [] => false
  | n :: names', a :: all' =>
      if n =? a then in_order names' all' else in_order names all'
  end.

(** ** Concrete builtins for the worked examples *)

Module Sample.

(** [float(s)] on the numerals typed in the examples. *)
Definition float_of_str (s : string) : option float :=
  if s =? "0.7" then Some 0.7%float
  else if s =? "0.9" then Some 0.9%float
  else if s =? "1.5" then Some 1.5%float
  else if s =? "2.0" then Some 2.0%float
  else if s =? "2.5" then Some 2.5%float
  else if s =? "-1" then Some (-1.0)%float
  else if s =? "nan" then Some nan
  else None.

Definition digit_of (c : ascii) : option Z :=
  let n := N_of_ascii c in
  if ((48 <=? n) && (n <=? 57))%N then Some (Z.of_N n - 48)%Z else None.

Fixpoint digits_value (acc : Z) (s : string) : option Z :=
  match s with
  | EmptyString => Some acc
  | String c s' =>
      match digit_of c with
      | Some d => digits_value (10 * acc + d) s'
      | None => None
      end
  end.

(** [int(s)] on plain decimal numerals with an optional sign. *)
Definition int_of_str (s : string) : option Z :=
  match s with
  | EmptyString => None
  | String "-" (String _ _ as ds) => option_map Z.opp (digits_value 0 ds)
  | String "+" (String _ _ as ds) => digits_value 0 ds
  | ds => digits_value 0 ds
  end.

(** A home directory, and a file system holding the second catalogue entry
    and one file with another extension. *)
Definition expanduser (p : string) : string :=
  match p with
  | String "~" rest => "/home/azor" ++ rest
  | _ => p
  end.

Definition os_path_exists (p : string) : bool :=
  (p =? "/home/azor/models/gemma-2-2b-it-Q8_0.gguf")
  || (p =? "/home/azor/models/weights.bin").

(** A file system with none of the catalogue entries. *)
Definition no_file (p : string) : bool := false.

(** The file system above, to which the third catalogue entry is added
    while the first choice is awaited. *)
Definition late_file (time : nat) (p : string) : bool :=
  os_path_exists p
  || (0 <? time)%nat
     && (p =? "/home/azor/models/Meta-Llama-3.1-8B-Instruct-Q4_K_M.gguf").

Definition raw : RawConfig :=
  mkRaw None (Some "gemma") (Some "/home/azor/models/gemma-2-2b-it-Q8_0.gguf")
        None None None None None.

End Sample.

(** * Properties *)

(** ** Stripping *)

Lemma lstrip_all_space ws s :
  all_space ws = true -> lstrip (ws ++ s) = lstrip s.
Proof.
  induction ws as [|c ws IH]; simpl; intros H; [reflexivity|].
  apply andb_true_iff in H as [Hc Hws]. rewrite Hc. auto.
Qed.

Lemma lstrip_only_space ws : all_space ws = true -> lstrip ws = "".
Proof.
  induction ws as [|c ws IH]; simpl; intros H; [reflexivity|].
  apply andb_true_iff in H as [Hc Hws]. rewrite Hc. auto.
Qed.

Lemma rstrip_only_space ws : all_space ws = true -> rstrip ws = "".
Proof.
  induction ws as [|c ws IH]; simpl; intros H; [reflexivity|].
  apply andb_true_iff in H as [Hc Hws]. rewrite (IH Hws), Hc. reflexivity.
Qed.

Lemma rstrip_app_space s ws :
  all_space ws = true -> rstrip (s ++ ws) = rstrip s.
Proof.
  intros H. induction s as [|c s IH]; simpl.
  - apply rstrip_only_space, H.
  - rewrite IH. reflexivity.
Qed.

Lemma lstrip_app s t :
  lstrip (s ++ t) = if all_space s then lstrip t else lstrip s ++ t.
Proof.
  induction s as [|c s IH]; simpl; [reflexivity|].
  destruct (isspace c); simpl; [exact IH | reflexivity].
Qed.

Lemma strip_only_space ws : all_space ws = true -> strip ws = "".
Proof. intros H. unfold strip. rewrite (lstrip_only_space _ H). reflexivity. Qed.

Lemma strip_padded a s b :
  all_space a = true -> all_space b = true -> strip (a ++ s ++ b) = strip s.
Proof.
  intros Ha Hb. unfold strip. rewrite (lstrip_all_space _ _ Ha), lstrip_app.
  destruct (all_space s) eqn:Hs.
  - rewrite (lstrip_only_space _ Hb), (lstrip_only_space _ Hs). reflexivity.
  - apply rstrip_app_space, Hb.
Qed.

(** ** Letter case *)

Ltac bool_to_prop H :=
  repeat first
    [ rewrite orb_true_iff in H | rewrite andb_true_iff in H
    | rewrite orb_false_iff in H | rewrite andb_false_iff in H
    | rewrite negb_true_iff in H | rewrite negb_false_iff in H
    | rewrite N.leb_le in H | rewrite N.leb_gt in H
    | rewrite N.eqb_eq in H | rewrite N.eqb_neq in H ].

Lemma lower_char_same a b :
  same_char_ignoring_case a b = true -> lower_char a = lower_char b.
Proof.
  unfold same_char_ignoring_case, lower_char.
  pose proof (ascii_N_embedding a) as Ha. pose proof (ascii_N_embedding b) as Hb.
  set (x := N_of_ascii a) in *. set (y := N_of_ascii b) in *.
  rewrite <- Ha, <- Hb. clearbody x y. clear Ha Hb. intros H.
  bool_to_prop H.
  match goal with
  | |- (if ?cx then _ else _) = (if ?cy then _ else _) =>
      destruct cx eqn:Ex; destruct cy eqn:Ey
  end;
    bool_to_prop Ex; bool_to_prop Ey; f_equal; lia.
Qed.

Lemma lower_same a b : same_ignoring_case a b = true -> lower a = lower b.
Proof.
  revert b. induction a as [|x a IH]; intros [|y b]; simpl; try discriminate.
  - reflexivity.
  - intros H. apply andb_true_iff in H as [Hc Hs].
    rewrite (lower_char_same _ _ Hc), (IH _ Hs). reflexivity.
Qed.

Lemma str_in_true x l : str_in x l = true <-> In x l.
Proof.
  unfold str_in. rewrite existsb_exists. split.
  - intros [y [Hy He]]. apply String.eqb_eq in He. now subst.
  - intros H. exists x. split; [assumption | apply String.eqb_refl].
Qed.

(** A token typed in any letter case, with or without surrounding
    whitespace, is read as the token itself. *)
Lemma is_token_lower tokens line :
  Forall (fun t => lower t = t) tokens ->
  is_token tokens line = true ->
  str_in (lower (strip line)) tokens = true.
Proof.
  unfold is_token. intros Hl H. apply existsb_exists in H as [t [Ht Hs]].
  apply str_in_true. apply lower_same in Hs. rewrite <- Hs.
  rewrite Forall_forall in Hl. rewrite (Hl _ Ht). exact Ht.
Qed.

Lemma yes_tokens_lower : Forall (fun t => lower t = t) yes_tokens.
Proof. repeat constructor. Qed.

Lemma no_tokens_lower : Forall (fun t => lower t = t) no_tokens.
Proof. repeat constructor. Qed.

Lemma is_empty_true s : is_empty s = true <-> s = "".
Proof. destruct s; simpl; split; congruence. Qed.

(** ** The read loop *)

Section Loop.

Context {A : Type} (p : text) (body : string -> list event * option A).

Lemma while_true_return l rest out evs v :
  body l = (evs, Some v) ->
  while_true p body (l :: rest) out
  = (Return v, mkWorld rest (out ++ Prompt p :: evs)).
Proof. intros H. simpl. rewrite H. reflexivity. Qed.

Lemma while_true_retry l rest out evs :
  body l = (evs, None) ->
  while_true p body (l :: rest) out
  = while_true p body rest (out ++ Prompt p :: evs).
Proof. intros H. simpl. rewrite H. reflexivity. Qed.

(** Lines on which the body falls through are consumed one by one, each
    leaving its prompt and its messages on the console. *)
Lemma while_true_skip (msgs : string -> list event) pre rest out :
  Forall (fun l => body l = (msgs l, None)) pre ->
  while_true p body (pre ++ rest) out
  = while_true p body rest (out ++ flat_map (fun l => Prompt p :: msgs l) pre).
Proof.
  intros H. revert out. induction H as [|l pre Hl _ IH]; intros out; simpl.
  - now rewrite app_nil_r.
  - rewrite Hl, IH, <- app_assoc. reflexivity.
Qed.

(** One round of the loop, as the source writes it: read a line, run the
    body, and either return or start again. *)
Lemma loop_unfold w :
  loop p body w
  = bind (input p)
         (fun l => bind (emits (fst (body l)))
                        (fun _ => match snd (body l) with
                                  | Some v => ret v
                                  | None => loop p body
                                  end)) w.
Proof.
  destruct w as [[|l rest] out]; unfold loop, bind, input, emits; simpl.
  - reflexivity.
  - destruct (body l) as [evs [v|]]; simpl; unfold ret;
      now rewrite <- app_assoc.
Qed.

(** A returned value is the one the body returned on some line read. *)
Lemma while_true_returned lines out v w :
  while_true p body lines out = (Return v, w) ->
  exists l evs, In l lines /\ body l = (evs, Some v).
Proof.
  revert out. induction lines as [|l rest IH]; intros out; simpl.
  - discriminate.
  - destruct (body l) as [evs [x|]] eqn:Hb.
    + intros H. injection H as Hv _. subst x. exists l, evs. auto.
    + intros H. destruct (IH _ H) as [l' [evs' [Hin Hl']]].
      exists l', evs'. auto.
Qed.

End Loop.

Ltac goal_to_prop :=
  repeat first
    [ rewrite orb_true_iff | rewrite andb_true_iff
    | rewrite N.leb_le | rewrite N.eqb_eq ].

Lemma lower_char_letter c :
  lowercase_letter (lower_char c) = true ->
  same_char_ignoring_case (lower_char c) c = true.
Proof.
  unfold lowercase_letter, same_char_ignoring_case, lower_char.
  pose proof (N_ascii_bounded c) as Hc.
  set (x := N_of_ascii c) in *.
  match goal with |- context [if ?cx then _ else _] => destruct cx eqn:Ex end.
  - bool_to_prop Ex. rewrite N_ascii_embedding by lia.
    intros H. bool_to_prop H. goal_to_prop. lia.
  - fold x. intros _. rewrite N.eqb_refl. reflexivity.
Qed.

Lemma lower_word s t :
  lower s = t -> lowercase_word t = true -> same_ignoring_case t s = true.
Proof.
  revert t. induction s as [|c s IH]; intros t Ht; subst t; simpl.
  - reflexivity.
  - intros H. apply andb_true_iff in H as [Hc Hs].
    rewrite (lower_char_letter _ Hc), (IH _ eq_refl Hs). reflexivity.
Qed.

(** On lower-case tokens, the membership test of the source is membership up
    to letter case. *)
Lemma is_token_str_in tokens line :
  Forall (fun t => lower t = t) tokens ->
  forallb lowercase_word tokens = true ->
  str_in (lower (strip line)) tokens = is_token tokens line.
Proof.
  intros Hl Hw. destruct (is_token tokens line) eqn:Ht.
  - apply is_token_lower; assumption.
  - destruct (str_in (lower (strip line)) tokens) eqn:Hs; [|reflexivity].
    rewrite <- Ht. symmetry. unfold is_token. apply existsb_exists.
    apply str_in_true in Hs. exists (lower (strip line)). split; [assumption|].
    apply lower_word; [reflexivity|].
    rewrite forallb_forall in Hw. auto.
Qed.

Lemma yes_is_token line :
  str_in (lower (strip line)) yes_tokens = is_token yes_tokens line.
Proof. apply is_token_str_in; [apply yes_tokens_lower | reflexivity]. Qed.

Lemma no_is_token line :
  str_in (lower (strip line)) no_tokens = is_token no_tokens line.
Proof. apply is_token_str_in; [apply no_tokens_lower | reflexivity]. Qed.

Lemma lower_empty s : is_empty (lower s) = is_empty s.
Proof. destruct s; reflexivity. Qed.

Lemma str_in_nonempty x l :
  str_in x l = true -> str_in "" l = false -> is_empty x = false.
Proof. destruct x; simpl; congruence. Qed.

Lemma no_token_not_yes x :
  str_in x no_tokens = true -> str_in x yes_tokens = false.
Proof.
  intros H. apply str_in_true in H. simpl in H.
  repeat (destruct H as [H|H]; [subst x; reflexivity|]). contradiction.
Qed.

(** ** [ask_yes_no] *)

Lemma ask_yes_no_body_cases default line :
  ask_yes_no_body default line =
  if is_empty (strip line) then ([], Some default)
  else if is_token yes_tokens line then ([], Some true)
  else if is_token no_tokens line then ([], Some false)
  else ([print_error yes_no_error], None).
Proof.
  unfold ask_yes_no_body. cbv zeta.
  rewrite lower_empty, yes_is_token, no_is_token. reflexivity.
Qed.

(** C5.  The yes/no prompt reads one line.  A line that is t, tak, y or yes
    in any letter case makes it return true, one that is n, nie or no makes
    it return false, an empty line makes it return the default; on any other
    line it returns nothing: it prints the error message and goes on with
    the next line. *)
Theorem ask_yes_no_answers question default line rest out :
  let asked := (out ++ [Prompt (yes_no_prompt question default)])%list in
  let run := ask_yes_no question default (mkWorld (line :: rest) out) in
  (is_token yes_tokens line = true -> run = (Return true, mkWorld rest asked))
  /\ (is_token no_tokens line = true -> run = (Return false, mkWorld rest asked))
  /\ (line = "" -> run = (Return default, mkWorld rest asked))
  /\ (strip line <> "" ->
      is_token yes_tokens line = false ->
      is_token no_tokens line = false ->
      run = ask_yes_no question default
              (mkWorld rest (asked ++ [print_error yes_no_error]))).
Proof.
  intros asked run. subst asked run. unfold ask_yes_no, loop. simpl stdin.
  simpl console. repeat split.
  - intros Hy. apply while_true_return. rewrite ask_yes_no_body_cases, Hy.
    rewrite <- yes_is_token in Hy.
    apply str_in_nonempty in Hy; [|reflexivity].
    rewrite lower_empty in Hy. rewrite Hy. reflexivity.
  - intros Hn. apply while_true_return. rewrite ask_yes_no_body_cases, Hn.
    rewrite <- no_is_token in Hn. pose proof (no_token_not_yes _ Hn) as Hy.
    apply str_in_nonempty in Hn; [|reflexivity].
    rewrite lower_empty in Hn. rewrite yes_is_token in Hy.
    rewrite Hn, Hy. reflexivity.
  - intros ->. reflexivity.
  - intros He Hy Hn. rewrite <- app_assoc. apply while_true_retry.
    rewrite ask_yes_no_body_cases, Hy, Hn.
    destruct (is_empty (strip line)) eqn:E; [|reflexivity].
    apply is_empty_true in E. contradiction.
Qed.

Lemma ask_yes_no_answers_witness :
  ask_yes_no "Dalej?" true (mkWorld ["Yes"] [])
  = (Return true, mkWorld [] [Prompt (yes_no_prompt "Dalej?" true)])
  /\ ask_yes_no "Dalej?" true (mkWorld ["NIE"; "t"] [])
     = (Return false, mkWorld ["t"] [Prompt (yes_no_prompt "Dalej?" true)])
  /\ ask_yes_no "Dalej?" true (mkWorld ["xyz"; "n"] [])
     = (Return false,
        mkWorld [] [Prompt (yes_no_prompt "Dalej?" true);
                    print_error yes_no_error;
                    Prompt (yes_no_prompt "Dalej?" true)]).
Proof.
  split; [|split].
  - destruct (ask_yes_no_answers "Dalej?" true "Yes" [] []) as (Hyes & _).
    exact (Hyes eq_refl).
  - destruct (ask_yes_no_answers "Dalej?" true "NIE" ["t"] [])
      as (_ & Hno & _).
    exact (Hno eq_refl).
  - destruct (ask_yes_no_answers "Dalej?" true "xyz" ["n"] [])
      as (_ & _ & _ & Hother).
    rewrite Hother; [reflexivity | discriminate | reflexivity | reflexivity].
Defined.

(** ** [ask_float] and [ask_int] *)

Section BoundedPrompts.

Variable float_of_str : string -> option float.
Variable int_of_str : string -> option Z.


Lemma ask_float_body_cases default min_val max_val line :
  ask_float_body float_of_str default min_val max_val line =
  if is_empty (strip line) then ([], Some default)
  else match float_typed float_of_str min_val max_val line with
       | Some v => ([], Some v)
       | None => ([print_error (float_rejection float_of_str min_val max_val line)], None)
       end.
Proof.
  unfold ask_float_body, float_typed, float_rejection.
  cbv zeta. destruct (is_empty (strip line)); [reflexivity|].
  destruct (float_of_str (strip line)) as [v|]; [|reflexivity].
  destruct (float_between min_val v max_val); reflexivity.
Qed.

Lemma ask_int_body_cases default min_val line :
  ask_int_body int_of_str default min_val line =
  if is_empty (strip line) then ([], Some default)
  else match int_typed int_of_str min_val line with
       | Some v => ([], Some v)
       | None => ([print_error (int_rejection int_of_str min_val line)], None)
       end.
Proof.
  unfold ask_int_body, int_typed, int_rejection.
  cbv zeta. destruct (is_empty (strip line)); [reflexivity|].
  destruct (int_of_str (strip line)) as [v|]; [|reflexivity].
  rewrite Z.geb_leb. destruct (min_val <=? v)%Z; reflexivity.
Qed.

(** C3.  Whatever the default and the bounds, an empty first line makes the
    bounded float prompt and the bounded integer prompt return the default
    itself, having printed the prompt and nothing else: the default is not
    compared with the bounds. *)
Theorem empty_line_returns_default :
  (forall question default min_val max_val rest out,
      ask_float float_of_str question default min_val max_val (mkWorld ("" :: rest) out)
      = (Return default,
         mkWorld rest (out ++ [Prompt (float_prompt question default)])))
  /\ (forall question default min_val rest out,
         ask_int int_of_str question default min_val (mkWorld ("" :: rest) out)
         = (Return default,
            mkWorld rest (out ++ [Prompt (int_prompt question default)]))).
Proof. split; intros; reflexivity. Qed.

Lemma ask_float_skip question default min_val max_val pre rest out :
  Forall (fun l => strip l <> "" /\ float_typed float_of_str min_val max_val l = None) pre ->
  ask_float float_of_str question default min_val max_val (mkWorld (pre ++ rest) out)
  = ask_float float_of_str question default min_val max_val
      (mkWorld rest (out ++ float_retries float_of_str question default min_val max_val pre)).
Proof.
  intros H. unfold ask_float, loop. simpl stdin. simpl console.
  apply (while_true_skip _ _
           (fun l => [print_error (float_rejection float_of_str min_val max_val l)])).
  eapply Forall_impl; [|exact H]. intros l [He Ht].
  rewrite ask_float_body_cases, Ht.
  destruct (is_empty (strip l)) eqn:E; [|reflexivity].
  apply is_empty_true in E. contradiction.
Qed.

Lemma ask_int_skip question default min_val pre rest out :
  Forall (fun l => strip l <> "" /\ int_typed int_of_str min_val l = None) pre ->
  ask_int int_of_str question default min_val (mkWorld (pre ++ rest) out)
  = ask_int int_of_str question default min_val
      (mkWorld rest (out ++ int_retries int_of_str question default min_val pre)).
Proof.
  intros H. unfold ask_int, loop. simpl stdin. simpl console.
  apply (while_true_skip _ _
           (fun l => [print_error (int_rejection int_of_str min_val l)])).
  eapply Forall_impl; [|exact H]. intros l [He Ht].
  rewrite ask_int_body_cases, Ht.
  destruct (is_empty (strip l)) eqn:E; [|reflexivity].
  apply is_empty_true in E. contradiction.
Qed.

Lemma float_typed_nonempty min_val max_val line v :
  float_of_str "" = None ->
  float_typed float_of_str min_val max_val line = Some v -> strip line <> "".
Proof.
  intros H0 Ht He. unfold float_typed in Ht. rewrite He, H0 in Ht. discriminate.
Qed.

Lemma int_typed_nonempty min_val line v :
  int_of_str "" = None ->
  int_typed int_of_str min_val line = Some v -> strip line <> "".
Proof.
  intros H0 Ht He. unfold int_typed in Ht. rewrite He, H0 in Ht. discriminate.
Qed.

(** C4, as amended.  The builtins reject the empty string.  On an input whose
    lines before the first accepted one are not empty once stripped, the
    bounded float prompt returns the number of the first line that parses
    and lies in [[min_val, max_val]], and the bounded integer prompt the
    first integer that is at least [min_val]; each earlier line is answered
    with one error message and another read, and nothing is returned for
    it. *)
Theorem first_accepted_line_returned :
  float_of_str "" = None ->
  int_of_str "" = None ->
  (forall question default min_val max_val pre line post out v,
      Forall (fun l => strip l <> ""
                       /\ float_typed float_of_str min_val max_val l = None) pre ->
      float_typed float_of_str min_val max_val line = Some v ->
      ask_float float_of_str question default min_val max_val
                (mkWorld (pre ++ line :: post) out)
      = (Return v,
         mkWorld post
                 (out ++ float_retries float_of_str question default
                                       min_val max_val pre
                      ++ [Prompt (float_prompt question default)])))
  /\ (forall question default min_val pre line post out v,
         Forall (fun l => strip l <> ""
                          /\ int_typed int_of_str min_val l = None) pre ->
         int_typed int_of_str min_val line = Some v ->
         ask_int int_of_str question default min_val
                 (mkWorld (pre ++ line :: post) out)
         = (Return v,
            mkWorld post
                    (out ++ int_retries int_of_str question default min_val pre
                         ++ [Prompt (int_prompt question default)]))).
Proof.
  intros Hf Hi. split.
  - intros question default min_val max_val pre line post out v Hpre Hline.
    rewrite ask_float_skip by assumption.
    unfold ask_float, loop. simpl stdin. simpl console.
    rewrite app_assoc. apply while_true_return.
    rewrite ask_float_body_cases, Hline.
    destruct (is_empty (strip line)) eqn:E; [|reflexivity].
    apply is_empty_true in E.
    now apply (float_typed_nonempty _ _ _ _ Hf) in Hline.
  - intros question default min_val pre line post out v Hpre Hline.
    rewrite ask_int_skip by assumption.
    unfold ask_int, loop. simpl stdin. simpl console.
    rewrite app_assoc. apply while_true_return.
    rewrite ask_int_body_cases, Hline.
    destruct (is_empty (strip line)) eqn:E; [|reflexivity].
    apply is_empty_true in E.
    now apply (int_typed_nonempty _ _ _ Hi) in Hline.
Qed.

Lemma while_true_same_body {A} p (body : string -> list event * option A)
      l l' rest out :
  body l = body l' ->
  while_true p body (l :: rest) out = while_true p body (l' :: rest) out.
Proof. intros H. simpl. rewrite H. reflexivity. Qed.

(** C10.  The three prompts strip each line before reading it.  A line made
    of whitespace only is an empty answer and returns the default; a line
    with whitespace around it is handled exactly as the same line typed
    bare.  So a number that parses and lies within the bounds is returned
    when it is typed between spaces, and so is the answer of a yes or no
    token typed between spaces in any letter case. *)
Theorem surrounding_whitespace_ignored a b :
  all_space a = true ->
  all_space b = true ->
  forall rest out,
    (forall question default,
        ask_yes_no question default (mkWorld (a :: rest) out)
        = (Return default,
           mkWorld rest (out ++ [Prompt (yes_no_prompt question default)])))
    /\ (forall question default min_val max_val,
           ask_float float_of_str question default min_val max_val
                     (mkWorld (a :: rest) out)
           = (Return default,
              mkWorld rest (out ++ [Prompt (float_prompt question default)])))
    /\ (forall question default min_val,
           ask_int int_of_str question default min_val (mkWorld (a :: rest) out)
           = (Return default,
              mkWorld rest (out ++ [Prompt (int_prompt question default)])))
    /\ (forall s question default,
           ask_yes_no question default (mkWorld ((a ++ s ++ b) :: rest) out)
           = ask_yes_no question default (mkWorld (s :: rest) out))
    /\ (forall s question default min_val max_val,
           ask_float float_of_str question default min_val max_val
                     (mkWorld ((a ++ s ++ b) :: rest) out)
           = ask_float float_of_str question default min_val max_val
                       (mkWorld (s :: rest) out))
    /\ (forall s question default min_val,
           ask_int int_of_str question default min_val
                   (mkWorld ((a ++ s ++ b) :: rest) out)
           = ask_int int_of_str question default min_val
                     (mkWorld (s :: rest) out))
    /\ (forall s question default,
           is_token yes_tokens s = true ->
           ask_yes_no question default (mkWorld ((a ++ s ++ b) :: rest) out)
           = (Return true,
              mkWorld rest (out ++ [Prompt (yes_no_prompt question default)])))
    /\ (forall s question default,
           is_token no_tokens s = true ->
           ask_yes_no question default (mkWorld ((a ++ s ++ b) :: rest) out)
           = (Return false,
              mkWorld rest (out ++ [Prompt (yes_no_prompt question default)])))
    /\ (forall s question default min_val max_val v,
           s <> "" ->
           strip s = s ->
           float_of_str s = Some v ->
           float_between min_val v max_val = true ->
           ask_float float_of_str question default min_val max_val
                     (mkWorld ((a ++ s ++ b) :: rest) out)
           = (Return v,
              mkWorld rest (out ++ [Prompt (float_prompt question default)])))
    /\ (forall s question default min_val v,
           s <> "" ->
           strip s = s ->
           int_of_str s = Some v ->
           (min_val <= v)%Z ->
           ask_int int_of_str question default min_val
                   (mkWorld ((a ++ s ++ b) :: rest) out)
           = (Return v,
              mkWorld rest (out ++ [Prompt (int_prompt question default)]))).
Proof.
  intros Ha Hb rest out.
  assert (Hpad : forall s, strip (a ++ s ++ b) = strip s)
    by (intros s; apply strip_padded; assumption).
  assert (Hyn : forall s question default,
             ask_yes_no question default (mkWorld ((a ++ s ++ b) :: rest) out)
             = ask_yes_no question default (mkWorld (s :: rest) out)).
  { intros. apply while_true_same_body. unfold ask_yes_no_body.
    rewrite Hpad. reflexivity. }
  repeat split; intros.
  - apply while_true_return. unfold ask_yes_no_body.
    rewrite (strip_only_space _ Ha). reflexivity.
  - apply while_true_return. unfold ask_float_body.
    rewrite (strip_only_space _ Ha). reflexivity.
  - apply while_true_return. unfold ask_int_body.
    rewrite (strip_only_space _ Ha). reflexivity.
  - apply Hyn.
  - apply while_true_same_body. unfold ask_float_body.
    rewrite Hpad. reflexivity.
  - apply while_true_same_body. unfold ask_int_body.
    rewrite Hpad. reflexivity.
  - rewrite Hyn. apply while_true_return.
    rewrite ask_yes_no_body_cases.
    match goal with H : is_token _ _ = true |- _ =>
      rewrite H; rewrite <- yes_is_token in H;
      apply str_in_nonempty in H; [|reflexivity];
      rewrite lower_empty in H; rewrite H end.
    reflexivity.
  - rewrite Hyn. apply while_true_return.
    rewrite ask_yes_no_body_cases.
    match goal with H : is_token _ _ = true |- _ =>
      rewrite H; rewrite <- no_is_token in H;
      pose proof (no_token_not_yes _ H) as Hy;
      apply str_in_nonempty in H; [|reflexivity];
      rewrite lower_empty in H; rewrite yes_is_token in Hy;
      rewrite H, Hy end.
    reflexivity.
  - apply while_true_return. unfold ask_float_body. cbv zeta.
    rewrite Hpad.
    match goal with Hs : strip s = s |- _ => rewrite Hs end.
    destruct (is_empty s) eqn:E; [apply is_empty_true in E; contradiction|].
    match goal with
    | Hv : float_of_str s = Some v, Hr : float_between _ _ _ = true |- _ =>
        rewrite Hv, Hr
    end.
    reflexivity.
  - apply while_true_return. unfold ask_int_body. cbv zeta.
    rewrite Hpad.
    match goal with Hs : strip s = s |- _ => rewrite Hs end.
    destruct (is_empty s) eqn:E; [apply is_empty_true in E; contradiction|].
    match goal with
    | Hv : int_of_str s = Some v, Hr : (_ <= _)%Z |- _ =>
        rewrite Hv; apply Z.geb_le in Hr; rewrite Hr
    end.
    reflexivity.
Qed.

End BoundedPrompts.

(** ** [ask_for_generation_params] *)

Lemma infos_run ls w :
  infos ls w = (Return tt, mkWorld (stdin w) (console w ++ map print_info ls)).
Proof.
  revert w. induction ls as [|t ts IH]; intros [ins out]; simpl.
  - now rewrite app_nil_r.
  - unfold bind, info, emit. simpl. rewrite IH. simpl.
    now rewrite <- app_assoc.
Qed.

Section GenerationParams.

Variable float_of_str : string -> option float.
Variable int_of_str : string -> option Z.

Lemma ask_float_returned question default min_val max_val w v w' :
  ask_float float_of_str question default min_val max_val w = (Return v, w') ->
  v = default \/ float_between min_val v max_val = true.
Proof.
  intros H. apply while_true_returned in H as (l & evs & _ & Hb).
  unfold ask_float_body in Hb. cbv zeta in Hb.
  destruct (is_empty (strip l)); [left; congruence|].
  destruct (float_of_str (strip l)) as [x|]; [|discriminate].
  destruct (float_between min_val x max_val) eqn:E; [|discriminate].
  right. congruence.
Qed.

Lemma ask_int_returned question default min_val w v w' :
  ask_int int_of_str question default min_val w = (Return v, w') ->
  v = default \/ (min_val <= v)%Z.
Proof.
  intros H. apply while_true_returned in H as (l & evs & _ & Hb).
  unfold ask_int_body in Hb. cbv zeta in Hb.
  destruct (is_empty (strip l)); [left; congruence|].
  destruct (int_of_str (strip l)) as [x|]; [|discriminate].
  destruct (x >=? min_val)%Z eqn:E; [|discriminate].
  right. apply Z.geb_le in E. congruence.
Qed.

(** C6.  When the answer to the gate question is no, the current values are
    returned as they were given, and nothing more is read: after the gate the
    call only prints that the defaults are used. *)
Theorem declined_returns_current_values current_temp current_top_p current_top_k w w1 :
  ask_yes_no configure_question false
             (mkWorld (stdin w) (console w ++ map print_info params_header))
  = (Return false, w1) ->
  ask_for_generation_params float_of_str int_of_str
                            current_temp current_top_p current_top_k w
  = (Return (mkParams current_temp current_top_p current_top_k),
     mkWorld (stdin w1)
             (console w1 ++ [print_info [Lit "Używam domyślnych parametrów..."]])).
Proof.
  intros Hgate. unfold ask_for_generation_params, bind.
  rewrite infos_run, Hgate. reflexivity.
Qed.

(** C9.  If the current values lie in their ranges, so does every record the
    call returns, whatever is typed: temperature in [[0.0, 2.0]], top_p in
    [[0.0, 1.0]] and top_k at least 0. *)
Theorem returned_params_in_range current_temp current_top_p current_top_k w r w' :
  params_in_range (mkParams current_temp current_top_p current_top_k) ->
  ask_for_generation_params float_of_str int_of_str
                            current_temp current_top_p current_top_k w
  = (Return r, w') ->
  params_in_range r.
Proof.
  intros (Ht & Hp & Hk). simpl in Ht, Hp, Hk.
  unfold ask_for_generation_params, bind. rewrite infos_run.
  destruct (ask_yes_no _ _ _) as [[[|]|] w1]; [| | discriminate];
    unfold negb; cbv beta iota.
  - rewrite infos_run.
    destruct (ask_float _ _ current_temp _ _ _) as [[t|] w2] eqn:Et;
      [|discriminate].
    destruct (ask_float _ _ current_top_p _ _ _) as [[p|] w3] eqn:Ep;
      [|discriminate].
    destruct (ask_int _ _ current_top_k _ _) as [[k|] w4] eqn:Ek;
      [|discriminate].
    rewrite infos_run. intros H. injection H as <- _.
    apply ask_float_returned in Et, Ep. apply ask_int_returned in Ek.
    repeat split; simpl.
    + destruct Et as [->|Et]; assumption.
    + destruct Ep as [->|Ep]; assumption.
    + destruct Ek as [->|Ek]; assumption.
  - intros H. injection H as <- _. repeat split; assumption.
Qed.

End GenerationParams.

(** ** [ask_for_model_choice] *)

Lemma filter_none {A} (f : A -> bool) l :
  (forall x, In x l -> f x = false) -> filter f l = [].
Proof.
  induction l as [|x l IH]; simpl; intros H; [reflexivity|].
  rewrite (H x) by auto. apply IH. auto.
Qed.

(** An entry that passes the filter is still found under its key. *)
Lemma lookup_filter (f : Model -> bool) k m d :
  lookup k d = Some m ->
  f m = true ->
  lookup k (filter (fun km => f (snd km)) d) = Some m.
Proof.
  induction d as [|[k' m'] d IH]; simpl; [discriminate|].
  destruct (k =? k') eqn:E.
  - intros H Hf. injection H as ->. rewrite Hf. simpl. rewrite E. reflexivity.
  - intros H Hf. destruct (f m'); simpl; [rewrite E|]; auto.
Qed.

Section ModelChoice.

Variable os_path_exists : string -> bool.
Variable expanduser : string -> string.

Lemma unavailable_is_missing k m :
  lookup k (models expanduser) = Some m ->
  lookup k (available_models os_path_exists expanduser) = None ->
  os_path_exists (path m) = false.
Proof.
  intros Hm Ha. destruct (os_path_exists (path m)) eqn:E; [|reflexivity].
  unfold available_models in Ha.
  rewrite (lookup_filter (fun x => os_path_exists (path x)) _ _ _ Hm E) in Ha.
  discriminate.
Qed.

(** C7.  When none of the three catalogue files exists, the call prints its
    header, the warning and the note that the default is used, and returns
    no selection; the lines waiting on the input are left unread. *)
Theorem no_model_file_no_prompt w :
  (forall key m, In (key, m) (models expanduser) ->
                 os_path_exists (path m) = false) ->
  ask_for_model_choice os_path_exists expanduser w
  = (Return None,
     mkWorld (stdin w)
             (console w ++ map print_info choice_header
                        ++ [print_error [Lit "⚠️  Nie znaleziono żadnych modeli!"];
                            print_info [Lit "Używam domyślnego z .env..."]])).
Proof.
  intros Hnone. unfold ask_for_model_choice, bind. rewrite infos_run.
  unfold available_models. rewrite filter_none.
  - destruct w as [ins out]. unfold error, info, emit, ret. simpl.
    now rewrite <- !app_assoc.
  - intros [key m] Hin. simpl. eapply Hnone, Hin.
Qed.

End ModelChoice.

Section ChoiceOverTime.

Variable fs : nat -> string -> bool.
Variable expanduser : string -> string.

(** On a file system that stays as it is, the loop and the function are the
    ones written for a single state. *)
Lemma choose_over_unchanging os_path_exists available time lines out :
  choose_over (fun _ => os_path_exists) expanduser available time lines out
  = while_true choice_prompt
               (choice_body os_path_exists expanduser available) lines out.
Proof.
  revert time out. induction lines as [|l rest IH]; intros time out; simpl.
  - reflexivity.
  - destruct (choice_body os_path_exists expanduser available l)
      as [evs [v|]]; [reflexivity | apply IH].
Qed.

Lemma ask_for_model_choice_unchanging os_path_exists w :
  ask_for_model_choice_over (fun _ => os_path_exists) expanduser w
  = ask_for_model_choice os_path_exists expanduser w.
Proof.
  unfold ask_for_model_choice_over, ask_for_model_choice, bind.
  destruct (infos choice_header w) as [[[]|] w1]; [|reflexivity].
  destruct (available_models os_path_exists expanduser) as [|e available];
    [reflexivity|].
  destruct (infos _ w1) as [[[]|] w2]; [|reflexivity].
  apply choose_over_unchanging.
Qed.

(** C8, as amended.  In the choice loop, a line whose token is a key of the
    catalogue but not of the available entries is answered with the error
    naming the missing file when that file is still missing as the choice is
    read, in particular when the file system has not changed at that path
    since the catalogue was filtered, and with the invalid-choice error when
    the file has appeared in the meantime; a line whose token is neither a
    key of the catalogue nor the sentinel 0 is answered with the
    invalid-choice error.  In every one of these cases the loop goes on with
    the next line, so nothing is selected by such a line. *)
Theorem rejected_choice_retried time line rest out :
  let available := available_models (fs 0) expanduser in
  let choose := choose_over fs expanduser available in
  (forall m,
      lookup (strip line) (models expanduser) = Some m ->
      contains (strip line) available = false ->
      choose time (line :: rest) out
      = choose (S time) rest
               (out ++ Prompt choice_prompt
                    :: (if fs (S time) (path m)
                        then [invalid_choice_error]
                        else missing_model_errors (path m)))%list)
  /\ (forall m,
         lookup (strip line) (models expanduser) = Some m ->
         contains (strip line) available = false ->
         fs (S time) (path m) = fs 0 (path m) ->
         choose time (line :: rest) out
         = choose (S time) rest
                  (out ++ Prompt choice_prompt
                       :: missing_model_errors (path m))%list)
  /\ (contains (strip line) (models expanduser) = false ->
      strip line <> "0" ->
      choose time (line :: rest) out
      = choose (S time) rest
               (out ++ [Prompt choice_prompt; invalid_choice_error])%list).
Proof.
  intros available choose. subst choose.
  assert (Hkey : forall m,
             lookup (strip line) (models expanduser) = Some m ->
             contains (strip line) available = false ->
             choice_body (fs (S time)) expanduser available line
             = (if fs (S time) (path m)
                then [invalid_choice_error]
                else missing_model_errors (path m), None)).
  { intros m Hm Ha. unfold choice_body. cbv zeta. unfold contains in Ha.
    destruct (lookup (strip line) available) eqn:Hl; [discriminate|].
    rewrite Hm.
    destruct (strip line =? "0") eqn:E.
    - apply String.eqb_eq in E. rewrite E in Hm. discriminate.
    - destruct (fs (S time) (path m)); reflexivity. }
  split; [|split].
  - intros m Hm Ha. simpl. rewrite (Hkey m Hm Ha). reflexivity.
  - intros m Hm Ha Hsame. simpl. rewrite (Hkey m Hm Ha), Hsame.
    unfold contains in Ha.
    destruct (lookup (strip line) available) eqn:Hl; [discriminate|].
    rewrite (unavailable_is_missing (fs 0) expanduser _ _ Hm Hl).
    reflexivity.
  - intros Hm H0. simpl.
    assert (Hb : choice_body (fs (S time)) expanduser available line
                 = ([invalid_choice_error], None)).
    { unfold choice_body. cbv zeta.
      apply String.eqb_neq in H0. rewrite H0.
      unfold contains in Hm.
      destruct (lookup (strip line) (models expanduser)) eqn:Hl;
        [discriminate|].
      destruct (lookup (strip line) available) eqn:Ha; [|reflexivity].
      exfalso. clear -Hl Ha. subst available. unfold available_models in Ha.
      revert Ha Hl. generalize (models expanduser).
      induction d as [|[k' m'] d IH]; simpl; [discriminate|].
      destruct (fs 0 (path m')); simpl;
        destruct (strip line =? k'); try discriminate; auto. }
    rewrite Hb. reflexivity.
Qed.

End ChoiceOverTime.


(** ** [LlamaConfig] *)

Section LlamaConfigProperties.

Variable os_path_exists : string -> bool.

(** A failed check of the model path fails the construction, and is
    reported under the field's name. *)
Lemma path_error_reported raw e :
  then_check (required (raw_llama_model_path raw))
             (validate_model_path os_path_exists) = inl e ->
  exists errors,
    LlamaConfig_new os_path_exists raw = inl errors
    /\ In ("llama_model_path", e) errors.
Proof.
  intros H. unfold LlamaConfig_new. cbv zeta. rewrite H.
  destruct (check_literal _ _), (required (raw_model_name raw));
    simpl; eexists; (split; [reflexivity|]);
    rewrite ?in_app_iff; simpl; tauto.
Qed.

(** A constructed record passed every check, the one on the path
    included, and carries the path it was given. *)
Lemma constructed_path raw config :
  LlamaConfig_new os_path_exists raw = inr config ->
  then_check (required (raw_llama_model_path raw))
             (validate_model_path os_path_exists)
  = inr (llama_model_path config).
Proof.
  unfold LlamaConfig_new. cbv zeta.
  destruct (check_literal _ _); simpl; [discriminate|].
  destruct (required (raw_model_name raw)); simpl; [discriminate|].
  destruct (then_check _ _); simpl; [discriminate|].
  repeat match goal with
         | |- context [value ?c] => destruct c; simpl; [discriminate|]
         end.
  intros H. injection H as <-. reflexivity.
Qed.

(** C2.  Whatever path is given, its existence is checked before its
    extension: a path that does not exist fails the construction with the
    file-does-not-exist error, whatever its suffix; one that exists without
    ending in .gguf fails it with the extension error; one that exists and
    ends in .gguf passes the validator unchanged.  A record is constructed
    only in the last case, and then holds that path. *)
Theorem model_path_checked raw v :
  raw_llama_model_path raw = Some v ->
  (os_path_exists v = false ->
   exists errors,
     LlamaConfig_new os_path_exists raw = inl errors
     /\ In ("llama_model_path",
            value_error [Lit "Plik modelu nie istnieje: "; Lit v]) errors)
  /\ (os_path_exists v = true ->
      endswith v ".gguf" = false ->
      exists errors,
        LlamaConfig_new os_path_exists raw = inl errors
        /\ In ("llama_model_path",
               value_error [Lit "Plik modelu musi mieć rozszerzenie .gguf"])
              errors)
  /\ (os_path_exists v = true ->
      endswith v ".gguf" = true ->
      validate_model_path os_path_exists v = inr v)
  /\ (forall config,
         LlamaConfig_new os_path_exists raw = inr config ->
         os_path_exists v = true
         /\ endswith v ".gguf" = true
         /\ llama_model_path config = v).
Proof.
  intros Hraw. repeat split.
  - intros He. apply path_error_reported. rewrite Hraw. simpl.
    unfold validate_model_path. rewrite He. reflexivity.
  - intros He Hs. apply path_error_reported. rewrite Hraw. simpl.
    unfold validate_model_path. rewrite He, Hs. reflexivity.
  - intros He Hs. unfold validate_model_path. rewrite He, Hs. reflexivity.
  - apply constructed_path in H. rewrite Hraw in H. simpl in H.
    unfold validate_model_path in H.
    destruct (os_path_exists v); [reflexivity | discriminate].
  - apply constructed_path in H. rewrite Hraw in H. simpl in H.
    unfold validate_model_path in H.
    destruct (os_path_exists v); simpl in H; [|discriminate].
    destruct (endswith v ".gguf"); [reflexivity | discriminate].
  - apply constructed_path in H. rewrite Hraw in H. simpl in H.
    unfold validate_model_path in H.
    destruct (os_path_exists v); simpl in H; [|discriminate].
    destruct (endswith v ".gguf"); simpl in H; congruence.
Qed.

(** C1.  With the other fields valid, a temperature is accepted exactly when
    it lies in [[0.0, 2.0]] and a number of GPU layers exactly when it is at
    least -1, the bounds included: 2.0 and -1 are accepted, 2.5 fails the
    upper bound of the temperature and -2 the lower bound of the layers. *)
Theorem temperature_and_gpu_layers_ranges raw :
  accepted (LlamaConfig_new os_path_exists raw) = true ->
  (forall t, accepted (LlamaConfig_new os_path_exists (set_temperature t raw))
             = float_between 0.0 t 2.0)
  /\ (forall g, accepted (LlamaConfig_new os_path_exists (set_gpu_layers g raw))
                = (-1 <=? g)%Z)
  /\ accepted (LlamaConfig_new os_path_exists (set_temperature 2.0 raw)) = true
  /\ LlamaConfig_new os_path_exists (set_temperature 2.5 raw)
     = inl [("llama_temperature", float_not_le 2.0)]
  /\ accepted (LlamaConfig_new os_path_exists (set_gpu_layers (-1) raw)) = true
  /\ LlamaConfig_new os_path_exists (set_gpu_layers (-2) raw)
     = inl [("llama_gpu_layers", int_not_ge (-1))].
Proof.
  intros H.
  assert (Ht : forall t,
             accepted (LlamaConfig_new os_path_exists (set_temperature t raw))
             = float_between 0.0 t 2.0
             /\ (float_between 0.0 t 2.0 = false ->
                 PrimFloat.leb 0.0 t = true ->
                 LlamaConfig_new os_path_exists (set_temperature t raw)
                 = inl [("llama_temperature", float_not_le 2.0)])).
  { intros t. destruct raw as [e n p g c t0 tp tk].
    unfold LlamaConfig_new in H |- *. cbv zeta in H |- *.
    cbn [raw_engine raw_model_name raw_llama_model_path raw_llama_gpu_layers
         raw_llama_context_size raw_llama_temperature raw_llama_top_p
         raw_llama_top_k set_temperature with_default] in H |- *.
    destruct (check_literal _ _); [discriminate H|].
    destruct (required n); [discriminate H|].
    destruct (then_check _ _); [discriminate H|].
    destruct (check_int_ge (-1) _); [discriminate H|].
    destruct (check_int_ge 1 _); [discriminate H|].
    cbn [value] in H |- *.
    destruct (check_float_range 0 2 (with_default _ t0)); [discriminate H|].
    destruct (check_float_range 0 1 _); [discriminate H|].
    destruct (check_int_ge 0 _); [discriminate H|].
    cbn [value]. unfold check_float_range, float_between.
    destruct (PrimFloat.leb 0 t), (PrimFloat.leb t 2); simpl;
      split; try reflexivity; discriminate. }
  assert (Hg : forall g,
             accepted (LlamaConfig_new os_path_exists (set_gpu_layers g raw))
             = (-1 <=? g)%Z
             /\ ((-1 <=? g)%Z = false ->
                 LlamaConfig_new os_path_exists (set_gpu_layers g raw)
                 = inl [("llama_gpu_layers", int_not_ge (-1))])).
  { intros g. destruct raw as [e n p g0 c t0 tp tk].
    unfold LlamaConfig_new in H |- *. cbv zeta in H |- *.
    cbn [raw_engine raw_model_name raw_llama_model_path raw_llama_gpu_layers
         raw_llama_context_size raw_llama_temperature raw_llama_top_p
         raw_llama_top_k set_gpu_layers with_default] in H |- *.
    destruct (check_literal _ _); [discriminate H|].
    destruct (required n); [discriminate H|].
    destruct (then_check _ _); [discriminate H|].
    destruct (check_int_ge (-1) (with_default _ g0)); [discriminate H|].
    destruct (check_int_ge 1 _); [discriminate H|].
    destruct (check_float_range 0 2 _); [discriminate H|].
    destruct (check_float_range 0 1 _); [discriminate H|].
    destruct (check_int_ge 0 _); [discriminate H|].
    cbn [value]. unfold check_int_ge. rewrite Z.geb_leb.
    destruct (-1 <=? g)%Z; simpl; split; try reflexivity; discriminate. }
  split; [intros t; apply Ht|]. split; [intros g; apply Hg|].
  split; [rewrite (proj1 (Ht _)); reflexivity|].
  split; [apply Ht; reflexivity|].
  split; [rewrite (proj1 (Hg _)); reflexivity|].
  apply Hg; reflexivity.
Qed.

End LlamaConfigProperties.

(** ** Worked examples *)

Lemma temperature_and_gpu_layers_ranges_witness :
  accepted (LlamaConfig_new Sample.os_path_exists
                            (set_temperature 2.0 Sample.raw)) = true
  /\ LlamaConfig_new Sample.os_path_exists (set_temperature 2.5 Sample.raw)
     = inl [("llama_temperature", float_not_le 2.0)]
  /\ accepted (LlamaConfig_new Sample.os_path_exists
                               (set_gpu_layers (-1) Sample.raw)) = true
  /\ LlamaConfig_new Sample.os_path_exists (set_gpu_layers (-2) Sample.raw)
     = inl [("llama_gpu_layers", int_not_ge (-1))].
Proof.
  destruct (temperature_and_gpu_layers_ranges
              Sample.os_path_exists Sample.raw eq_refl)
    as (_ & _ & H20 & H25 & Hm1 & Hm2).
  repeat split; assumption.
Defined.

Lemma model_path_checked_witness :
  (exists errors,
      LlamaConfig_new Sample.os_path_exists
                      (set_model_path "/tmp/absent.gguf" Sample.raw)
      = inl errors
      /\ In ("llama_model_path",
             value_error [Lit "Plik modelu nie istnieje: ";
                          Lit "/tmp/absent.gguf"]) errors)
  /\ (exists errors,
         LlamaConfig_new Sample.os_path_exists
                         (set_model_path "/home/azor/models/weights.bin"
                                         Sample.raw)
         = inl errors
         /\ In ("llama_model_path",
                value_error [Lit "Plik modelu musi mieć rozszerzenie .gguf"])
               errors)
  /\ validate_model_path Sample.os_path_exists
                         "/home/azor/models/gemma-2-2b-it-Q8_0.gguf"
     = inr "/home/azor/models/gemma-2-2b-it-Q8_0.gguf".
Proof.
  split; [|split].
  - destruct (model_path_checked Sample.os_path_exists
                (set_model_path "/tmp/absent.gguf" Sample.raw)
                "/tmp/absent.gguf" eq_refl) as (Habsent & _).
    exact (Habsent eq_refl).
  - destruct (model_path_checked Sample.os_path_exists
                (set_model_path "/home/azor/models/weights.bin" Sample.raw)
                "/home/azor/models/weights.bin" eq_refl) as (_ & Hext & _).
    exact (Hext eq_refl eq_refl).
  - destruct (model_path_checked Sample.os_path_exists Sample.raw
                "/home/azor/models/gemma-2-2b-it-Q8_0.gguf" eq_refl)
      as (_ & _ & Hok & _).
    exact (Hok eq_refl eq_refl).
Defined.

(** C4, as stated, fails: an empty line ahead of the first accepted line
    ends the prompt with the default.  With the default 0.7 and the lines
    "" and "1.5", the first line that parses as a number in [[0.0, 2.0]] is
    "1.5", and 0.7 is returned with "1.5" left unread; likewise the integer
    prompt with the default 40 and the lines "" and "5" returns 40. *)
Lemma empty_line_before_accepted_line :
  float_typed Sample.float_of_str 0.0 2.0 "" = None
  /\ float_typed Sample.float_of_str 0.0 2.0 "1.5" = Some 1.5%float
  /\ ask_float Sample.float_of_str "T" 0.7 0.0 2.0 (mkWorld [""; "1.5"] [])
     = (Return 0.7%float, mkWorld ["1.5"] [Prompt (float_prompt "T" 0.7)])
  /\ 0.7%float <> 1.5%float
  /\ int_typed Sample.int_of_str 0 "" = None
  /\ int_typed Sample.int_of_str 0 "5" = Some 5%Z
  /\ ask_int Sample.int_of_str "K" 40 0 (mkWorld [""; "5"] [])
     = (Return 40%Z, mkWorld ["5"] [Prompt (int_prompt "K" 40)]).
Proof.
  repeat split; try reflexivity.
  intros H. apply (f_equal (PrimFloat.leb 1.0)) in H. vm_compute in H.
  discriminate H.
Qed.

Lemma first_accepted_line_returned_witness :
  ask_float Sample.float_of_str "T" 0.7 0.0 2.0
            (mkWorld ["abc"; "2.5"; " 1.5 "; "0.9"] [])
  = (Return 1.5%float,
     mkWorld ["0.9"]
             [Prompt (float_prompt "T" 0.7); print_error float_parse_error;
              Prompt (float_prompt "T" 0.7);
              print_error (float_range_error 0.0 2.0);
              Prompt (float_prompt "T" 0.7)])
  /\ ask_int Sample.int_of_str "K" 40 0 (mkWorld ["1.5"; "-3"; "7"] [])
     = (Return 7%Z,
        mkWorld []
                [Prompt (int_prompt "K" 40); print_error int_parse_error;
                 Prompt (int_prompt "K" 40); print_error (int_range_error 0);
                 Prompt (int_prompt "K" 40)]).
Proof.
  destruct (first_accepted_line_returned
              Sample.float_of_str Sample.int_of_str eq_refl eq_refl)
    as (Hfloat & Hint).
  split.
  - apply (Hfloat "T" 0.7%float 0.0%float 2.0%float ["abc"; "2.5"] " 1.5 "
                  ["0.9"] [] 1.5%float).
    + repeat constructor; discriminate.
    + reflexivity.
  - apply (Hint "K" 40%Z 0%Z ["1.5"; "-3"] "7" [] [] 7%Z).
    + repeat constructor; discriminate.
    + reflexivity.
Defined.

Lemma declined_returns_current_values_witness :
  ask_for_generation_params Sample.float_of_str Sample.int_of_str
                            0.7 0.9 40 (mkWorld ["no"; "1.5"] [])
  = (Return (mkParams 0.7 0.9 40),
     mkWorld ["1.5"]
             (map print_info params_header
              ++ [Prompt (yes_no_prompt configure_question false);
                  print_info [Lit "Używam domyślnych parametrów..."]])).
Proof.
  apply (declined_returns_current_values
           Sample.float_of_str Sample.int_of_str 0.7 0.9 40
           (mkWorld ["no"; "1.5"] [])
           (mkWorld ["1.5"]
                    (map print_info params_header
                     ++ [Prompt (yes_no_prompt configure_question false)]))).
  reflexivity.
Defined.

Lemma returned_params_in_range_witness :
  params_in_range (mkParams 1.5 0.9 50).
Proof.
  apply (returned_params_in_range
           Sample.float_of_str Sample.int_of_str 0.7 0.9 40
           (mkWorld ["t"; "2.5"; "1.5"; ""; " 50 "] [])
           (mkParams 1.5 0.9 50)
           (snd (ask_for_generation_params
                   Sample.float_of_str Sample.int_of_str 0.7 0.9 40
                   (mkWorld ["t"; "2.5"; "1.5"; ""; " 50 "] [])))).
  - repeat split; simpl; lia.
  - reflexivity.
Defined.

Lemma surrounding_whitespace_ignored_witness :
  ask_float Sample.float_of_str "T" 0.7 0.0 2.0 (mkWorld ["   "] [])
  = (Return 0.7%float, mkWorld [] [Prompt (float_prompt "T" 0.7)])
  /\ ask_int Sample.int_of_str "K" 40 0 (mkWorld ["  7 "] [])
     = ask_int Sample.int_of_str "K" 40 0 (mkWorld ["7"] [])
  /\ ask_yes_no "Dalej?" false (mkWorld ["  TaK "] [])
     = (Return true, mkWorld [] [Prompt (yes_no_prompt "Dalej?" false)])
  /\ ask_float Sample.float_of_str "T" 0.7 0.0 2.0 (mkWorld ["  1.5 "] [])
     = (Return 1.5%float, mkWorld [] [Prompt (float_prompt "T" 0.7)])
  /\ ask_int Sample.int_of_str "K" 40 0 (mkWorld ["  7 "] [])
     = (Return 7%Z, mkWorld [] [Prompt (int_prompt "K" 40)]).
Proof.
  destruct (surrounding_whitespace_ignored
              Sample.float_of_str Sample.int_of_str "  " " " eq_refl eq_refl
              [] [])
    as (_ & Hblank & _ & _ & _ & Hint & Hyes & _ & Hfnum & Hinum).
  split; [|split; [|split; [|split]]].
  - destruct (surrounding_whitespace_ignored
                Sample.float_of_str Sample.int_of_str "   " "" eq_refl eq_refl
                [] [])
      as (_ & Hfloat & _).
    apply Hfloat.
  - apply (Hint "7").
  - apply (Hyes "TaK"). reflexivity.
  - apply (Hfnum "1.5" "T" 0.7%float 0.0%float 2.0%float 1.5%float);
      [discriminate | reflexivity | reflexivity | reflexivity].
  - apply (Hinum "7" "K" 40%Z 0%Z 7%Z);
      [discriminate | reflexivity | reflexivity | lia].
Defined.

Lemma no_model_file_no_prompt_witness :
  ask_for_model_choice Sample.no_file Sample.expanduser (mkWorld ["2"] [])
  = (Return None,
     mkWorld ["2"]
             (map print_info choice_header
              ++ [print_error [Lit "⚠️  Nie znaleziono żadnych modeli!"];
                  print_info [Lit "Używam domyślnego z .env..."]])).
Proof.
  apply (no_model_file_no_prompt Sample.no_file Sample.expanduser
                                 (mkWorld ["2"] [])).
  reflexivity.
Defined.

(** C8, as stated, fails twice.  The token 0 is no key of the catalogue, and
    the loop answers it with no selection, not with the invalid-choice error
    and another read.  And when the file of the third entry, missing as the
    catalogue is filtered, has appeared by the time the choice 3 is read,
    that key of the catalogue, which is not among the available entries, is
    answered with the invalid-choice error, not with the error naming the
    file. *)
Lemma sentinel_and_late_file_choices :
  let available := available_models (Sample.late_file 0) Sample.expanduser in
  let choose := choose_over Sample.late_file Sample.expanduser available in
  contains "0" (models Sample.expanduser) = false
  /\ choose 0 ["0"; "2"] []
     = (Return None,
        mkWorld ["2"]
                [Prompt choice_prompt;
                 print_info [Lit "Używam domyślnego modelu z .env..."]])
  /\ choose 0 ["0"; "2"] []
     <> choose 1 ["2"] [Prompt choice_prompt; invalid_choice_error]
  /\ contains "3" (models Sample.expanduser) = true
  /\ contains "3" available = false
  /\ choose 0 ["3"; "2"] []
     = choose 1 ["2"] [Prompt choice_prompt; invalid_choice_error]
  /\ choose 0 ["3"; "2"] []
     <> choose 1 ["2"]
               (Prompt choice_prompt
                :: missing_model_errors
                     "/home/azor/models/Meta-Llama-3.1-8B-Instruct-Q4_K_M.gguf").
Proof.
  repeat split; intros H; vm_compute in H; discriminate H.
Qed.

Lemma rejected_choice_retried_witness :
  let available := available_models (Sample.late_file 0) Sample.expanduser in
  let choose := choose_over Sample.late_file Sample.expanduser available in
  choose 0 [" 3 "; "2"] []
  = choose 1 ["2"] [Prompt choice_prompt; invalid_choice_error]
  /\ choose 0 [" 1 "; "2"] []
     = choose 1 ["2"]
              (Prompt choice_prompt
               :: missing_model_errors
                    "/home/azor/Library/Caches/llama.cpp/ggml-org_gemma-3-1b-it-GGUF_gemma-3-1b-it-Q4_K_M.gguf")
  /\ choose 0 ["7"; "2"] []
     = choose 1 ["2"] [Prompt choice_prompt; invalid_choice_error].
Proof.
  intros available choose. split; [|split].
  - destruct (rejected_choice_retried Sample.late_file Sample.expanduser
                                      0 " 3 " ["2"] []) as (Hkey & _).
    apply (Hkey (mkModel "Llama 3.1 8B Q4_K_M"
                   "/home/azor/models/Meta-Llama-3.1-8B-Instruct-Q4_K_M.gguf"
                   "~5GB RAM" "⚡ Wolniejszy" "⭐⭐⭐⭐⭐ Najlepsza jakość"));
      reflexivity.
  - destruct (rejected_choice_retried Sample.late_file Sample.expanduser
                                      0 " 1 " ["2"] []) as (_ & Hsame & _).
    apply (Hsame (mkModel "Gemma 3 1B Q4_K_M"
                    "/home/azor/Library/Caches/llama.cpp/ggml-org_gemma-3-1b-it-GGUF_gemma-3-1b-it-Q4_K_M.gguf"
                    "~600MB RAM" "⚡⚡⚡ Bardzo szybki" "⭐⭐⭐ Dobra jakość"));
      reflexivity.
  - destruct (rejected_choice_retried Sample.late_file Sample.expanduser
                                      0 "7" ["2"] []) as (_ & _ & Hunknown).
    apply Hunknown; [reflexivity | discriminate].
Defined.

(** * Further properties *)

(** ** The first line that answers decides *)

Lemma ask_yes_no_body_answer default line :
  ask_yes_no_body default line
  = match yes_no_answer default line with
    | Some b => ([], Some b)
    | None => ([print_error yes_no_error], None)
    end.
Proof.
  rewrite ask_yes_no_body_cases. unfold yes_no_answer.
  destruct (is_empty (strip line)); [reflexivity|].
  destruct (is_token yes_tokens line); [reflexivity|].
  destruct (is_token no_tokens line); reflexivity.
Qed.

Section Answering.

Variable float_of_str : string -> option float.
Variable int_of_str : string -> option Z.

Lemma ask_float_body_answer default min_val max_val line :
  ask_float_body float_of_str default min_val max_val line
  = match float_answer float_of_str default min_val max_val line with
    | Some v => ([], Some v)
    | None =>
        ([print_error (float_rejection float_of_str min_val max_val line)], None)
    end.
Proof.
  rewrite ask_float_body_cases. unfold float_answer.
  destruct (is_empty (strip line)); reflexivity.
Qed.

Lemma ask_int_body_answer default min_val line :
  ask_int_body int_of_str default min_val line
  = match int_answer int_of_str default min_val line with
    | Some v => ([], Some v)
    | None => ([print_error (int_rejection int_of_str min_val line)], None)
    end.
Proof.
  rewrite ask_int_body_cases. unfold int_answer.
  destruct (is_empty (strip line)); reflexivity.
Qed.

(** X1.  The yes/no prompt returns the answer of the first line that has
    one: the default for an empty line, true or false for a token.  Every
    line before it is answered with the error message and another prompt. *)
Theorem ask_yes_no_first_answer question default pre line post out b :
  Forall (fun l => yes_no_answer default l = None) pre ->
  yes_no_answer default line = Some b ->
  ask_yes_no question default (mkWorld (pre ++ line :: post) out)
  = (Return b,
     mkWorld post (out ++ yes_no_retries question default pre
                       ++ [Prompt (yes_no_prompt question default)])).
Proof.
  intros Hpre Hline. unfold ask_yes_no, loop. simpl stdin. simpl console.
  rewrite (while_true_skip _ _ (fun _ => [print_error yes_no_error])).
  - rewrite app_assoc. apply while_true_return.
    rewrite ask_yes_no_body_answer, Hline. reflexivity.
  - eapply Forall_impl; [|exact Hpre]. intros l Hl. simpl in Hl.
    rewrite ask_yes_no_body_answer, Hl. reflexivity.
Qed.

(** X2.  The bounded prompts return the answer of the first line that has
    one: the default for an empty line, the number typed for a line that
    parses within the bounds.  Every line before it is answered with one
    error message and another prompt. *)
Theorem bounded_prompts_first_answer :
  (forall question default min_val max_val pre line post out v,
      Forall (fun l => float_answer float_of_str default min_val max_val l = None)
             pre ->
      float_answer float_of_str default min_val max_val line = Some v ->
      ask_float float_of_str question default min_val max_val
                (mkWorld (pre ++ line :: post) out)
      = (Return v,
         mkWorld post
                 (out ++ float_retries float_of_str question default
                                       min_val max_val pre
                      ++ [Prompt (float_prompt question default)])))
  /\ (forall question default min_val pre line post out v,
         Forall (fun l => int_answer int_of_str default min_val l = None) pre ->
         int_answer int_of_str default min_val line = Some v ->
         ask_int int_of_str question default min_val
                 (mkWorld (pre ++ line :: post) out)
         = (Return v,
            mkWorld post
                    (out ++ int_retries int_of_str question default min_val pre
                         ++ [Prompt (int_prompt question default)]))).
Proof.
  split.
  - intros question default min_val max_val pre line post out v Hpre Hline.
    unfold ask_float, loop. simpl stdin. simpl console.
    rewrite (while_true_skip _ _
               (fun l => [print_error
                            (float_rejection float_of_str min_val max_val l)])).
    + rewrite app_assoc. apply while_true_return.
      rewrite ask_float_body_answer, Hline. reflexivity.
    + eapply Forall_impl; [|exact Hpre]. intros l Hl. simpl in Hl.
      rewrite ask_float_body_answer, Hl. reflexivity.
  - intros question default min_val pre line post out v Hpre Hline.
    unfold ask_int, loop. simpl stdin. simpl console.
    rewrite (while_true_skip _ _
               (fun l => [print_error (int_rejection int_of_str min_val l)])).
    + rewrite app_assoc. apply while_true_return.
      rewrite ask_int_body_answer, Hline. reflexivity.
    + eapply Forall_impl; [|exact Hpre]. intros l Hl. simpl in Hl.
      rewrite ask_int_body_answer, Hl. reflexivity.
Qed.

(** The loop ends on [EOFError] exactly when the body falls through on every
    line there is. *)
Lemma while_true_eof {A} p (body : string -> list event * option A) lines out :
  fst (while_true p body lines out) = EOFError
  <-> Forall (fun l => snd (body l) = None) lines.
Proof.
  revert out. induction lines as [|l rest IH]; intros out; simpl.
  - split; auto.
  - destruct (body l) as [evs [v|]] eqn:Hb; simpl.
    + split; [discriminate|]. intros H. inversion H as [|? ? Hl _]; subst.
      rewrite Hb in Hl. discriminate.
    + rewrite IH. split; intros H.
      * constructor; [rewrite Hb; reflexivity | assumption].
      * now inversion H.
Qed.

(** X3.  A prompt raises [EOFError] exactly when no line of the input
    answers it; it then never returns the default or any other value. *)
Theorem prompts_raise_EOFError w :
  (forall question default,
      fst (ask_yes_no question default w) = EOFError
      <-> Forall (fun l => yes_no_answer default l = None) (stdin w))
  /\ (forall question default min_val max_val,
         fst (ask_float float_of_str question default min_val max_val w)
         = EOFError
         <-> Forall (fun l => float_answer float_of_str default
                                           min_val max_val l = None)
                    (stdin w))
  /\ (forall question default min_val,
         fst (ask_int int_of_str question default min_val w) = EOFError
         <-> Forall (fun l => int_answer int_of_str default min_val l = None)
                    (stdin w)).
Proof.
  repeat split; unfold ask_yes_no, ask_float, ask_int, loop;
    rewrite while_true_eof; apply Forall_impl; intros l;
    rewrite ?ask_yes_no_body_answer, ?ask_float_body_answer,
            ?ask_int_body_answer;
    match goal with
    | |- context [match ?a with _ => _ end] => destruct a
    end; simpl; congruence.
Qed.

End Answering.

(** ** One prompt for each read *)

Lemma prompts_app a b : prompts (a ++ b) = prompts a + prompts b.
Proof.
  induction a as [|[t|t|t] a IH]; simpl; [reflexivity | | |]; rewrite IH;
    reflexivity.
Qed.

Lemma prompts_infos ls : prompts (map print_info ls) = 0.
Proof. induction ls; simpl; auto. Qed.

Lemma discipline_ret {A} (a : A) : stream_discipline (ret a).
Proof.
  intros w r w' H. injection H as <- <-. exists [], []. simpl.
  now rewrite app_nil_r.
Qed.

Lemma discipline_emits {A} (evs : list event) (m : M A) :
  prompts evs = 0 ->
  (forall w, exists a, m w = (Return a, mkWorld (stdin w) (console w ++ evs))) ->
  stream_discipline m.
Proof.
  intros Hp Hm w r w' H. destruct (Hm w) as [a Ha]. rewrite Ha in H.
  injection H as <- <-. exists [], evs. simpl. auto.
Qed.

Lemma discipline_info t : stream_discipline (info t).
Proof.
  apply (discipline_emits [print_info t]); [reflexivity|].
  intros w. exists tt. reflexivity.
Qed.

Lemma discipline_error t : stream_discipline (error t).
Proof.
  apply (discipline_emits [print_error t]); [reflexivity|].
  intros w. exists tt. reflexivity.
Qed.

Lemma discipline_infos ls : stream_discipline (infos ls).
Proof.
  apply (discipline_emits (map print_info ls)); [apply prompts_infos|].
  intros w. exists tt. apply infos_run.
Qed.

(** The discipline is kept by sequencing. *)
Lemma discipline_bind {A B} (m : M A) (k : A -> M B) :
  stream_discipline m ->
  (forall a, stream_discipline (k a)) ->
  stream_discipline (bind m k).
Proof.
  intros Hm Hk w r w'. unfold bind.
  destruct (m w) as [[a|] w1] eqn:Em.
  - intros Ek.
    destruct (Hm _ _ _ Em) as (c1 & p1 & Hin1 & Hout1 & Hn1).
    destruct (Hk a _ _ _ Ek) as (c2 & p2 & Hin2 & Hout2 & Hn2).
    exists (c1 ++ c2)%list, (p1 ++ p2)%list.
    rewrite Hin1, Hin2, Hout2, Hout1, prompts_app, Hn1, Hn2, !app_assoc.
    rewrite length_app. simpl. repeat split; lia.
  - intros H. injection H as <- <-. exact (Hm _ _ _ Em).
Qed.

(** A loop whose body prints no prompt of its own keeps the discipline. *)
Lemma discipline_loop {A} p (body : string -> list event * option A) :
  (forall l, prompts (fst (body l)) = 0) ->
  stream_discipline (loop p body).
Proof.
  intros Hbody [lines out] r w'. unfold loop. simpl stdin. simpl console.
  revert out. induction lines as [|l rest IH]; intros out; simpl.
  - intros H. injection H as <- <-. exists [], [Prompt p]. auto.
  - specialize (Hbody l). destruct (body l) as [evs [v|]]; simpl in Hbody.
    + intros H. injection H as <- <-. exists [l], (Prompt p :: evs).
      simpl. rewrite Hbody. auto.
    + intros H. destruct (IH _ H) as (c & pr & Hin & Hout & Hn).
      exists (l :: c), ((Prompt p :: evs) ++ pr)%list.
      rewrite Hout, prompts_app, <- app_assoc. simpl.
      rewrite Hbody, Hn, Hin. auto.
Qed.

Section Discipline.

Variable float_of_str : string -> option float.
Variable int_of_str : string -> option Z.
Variable os_path_exists : string -> bool.
Variable expanduser : string -> string.

Lemma discipline_ask_yes_no question default :
  stream_discipline (ask_yes_no question default).
Proof.
  apply discipline_loop. intros l. rewrite ask_yes_no_body_answer.
  destruct (yes_no_answer default l); reflexivity.
Qed.

Lemma discipline_ask_float question default min_val max_val :
  stream_discipline (ask_float float_of_str question default min_val max_val).
Proof.
  apply discipline_loop. intros l. rewrite ask_float_body_answer.
  destruct (float_answer _ _ _ _ l); reflexivity.
Qed.

Lemma discipline_ask_int question default min_val :
  stream_discipline (ask_int int_of_str question default min_val).
Proof.
  apply discipline_loop. intros l. rewrite ask_int_body_answer.
  destruct (int_answer _ _ _ l); reflexivity.
Qed.

(** X4.  However one of the three prompts ends, it has consumed a prefix of
    the input, has only added to the console, and has printed exactly one
    prompt for each read: one per line consumed, and one more when the last
    read raised [EOFError]. *)
Theorem prompts_keep_stream_discipline :
  (forall question default, stream_discipline (ask_yes_no question default))
  /\ (forall question default min_val max_val,
         stream_discipline
           (ask_float float_of_str question default min_val max_val))
  /\ (forall question default min_val,
         stream_discipline (ask_int int_of_str question default min_val)).
Proof.
  split; [|split]; intros.
  - apply discipline_ask_yes_no.
  - apply discipline_ask_float.
  - apply discipline_ask_int.
Qed.

(** X5.  The two assembling operations keep the same discipline through all
    their prompts and messages: they consume a prefix of the input, only add
    to the console, and print one prompt for each read. *)
Theorem assemblers_keep_stream_discipline :
  (forall current_temp current_top_p current_top_k,
      stream_discipline
        (ask_for_generation_params float_of_str int_of_str
                                   current_temp current_top_p current_top_k))
  /\ stream_discipline (ask_for_model_choice os_path_exists expanduser).
Proof.
  split.
  - intros. unfold ask_for_generation_params.
    apply discipline_bind; [apply discipline_infos|]. intros _.
    apply discipline_bind; [apply discipline_ask_yes_no|]. intros [|]; unfold negb; cbv beta iota.
    + apply discipline_bind; [apply discipline_infos|]. intros _.
      apply discipline_bind; [apply discipline_ask_float|]. intros t.
      apply discipline_bind; [apply discipline_ask_float|]. intros p.
      apply discipline_bind; [apply discipline_ask_int|]. intros k.
      apply discipline_bind; [apply discipline_infos|]. intros _.
      apply discipline_ret.
    + apply discipline_bind; [apply discipline_info|]. intros _.
      apply discipline_ret.
  - unfold ask_for_model_choice.
    apply discipline_bind; [apply discipline_infos|]. intros _.
    destruct (available_models os_path_exists expanduser) as [|e available].
    + apply discipline_bind; [apply discipline_error|]. intros _.
      apply discipline_bind; [apply discipline_info|]. intros _.
      apply discipline_ret.
    + apply discipline_bind; [apply discipline_infos|]. intros _.
      apply discipline_loop. intros l. unfold choice_body. cbv zeta.
      destruct (strip l =? "0"); [reflexivity|].
      destruct (lookup _ (e :: available)); [reflexivity|].
      destruct (lookup _ _); [|reflexivity].
      destruct (negb _); reflexivity.
Qed.

End Discipline.

(** ** Collecting the generation parameters *)

Lemma ask_yes_no_answered question default line rest out b :
  yes_no_answer default line = Some b ->
  ask_yes_no question default (mkWorld (line :: rest) out)
  = (Return b, mkWorld rest (out ++ [Prompt (yes_no_prompt question default)])).
Proof.
  intros H. apply while_true_return. rewrite ask_yes_no_body_answer, H.
  reflexivity.
Qed.

Section Collecting.

Variable float_of_str : string -> option float.
Variable int_of_str : string -> option Z.

Lemma ask_float_answered question default min_val max_val line rest out v :
  float_answer float_of_str default min_val max_val line = Some v ->
  ask_float float_of_str question default min_val max_val
            (mkWorld (line :: rest) out)
  = (Return v, mkWorld rest (out ++ [Prompt (float_prompt question default)])).
Proof.
  intros H. apply while_true_return. rewrite ask_float_body_answer, H.
  reflexivity.
Qed.

Lemma ask_int_answered question default min_val line rest out v :
  int_answer int_of_str default min_val line = Some v ->
  ask_int int_of_str question default min_val (mkWorld (line :: rest) out)
  = (Return v, mkWorld rest (out ++ [Prompt (int_prompt question default)])).
Proof.
  intros H. apply while_true_return. rewrite ask_int_body_answer, H.
  reflexivity.
Qed.

(** X6.  When the gate is answered yes, the next three lines are read as the
    temperature within [[0.0, 2.0]], top_p within [[0.0, 1.0]] and top_k from
    0 up, in that order, an empty line keeping the current value; the record
    of the three answers is returned after four prompts in all, the summary
    is the last thing printed, and the lines after those four are left
    unread. *)
Theorem configured_params_in_order
        current_temp current_top_p current_top_k gate lt lp lk rest out t p k :
  yes_no_answer false gate = Some true ->
  float_answer float_of_str current_temp 0.0 2.0 lt = Some t ->
  float_answer float_of_str current_top_p 0.0 1.0 lp = Some p ->
  int_answer int_of_str current_top_k 0 lk = Some k ->
  exists printed,
    ask_for_generation_params float_of_str int_of_str
                              current_temp current_top_p current_top_k
                              (mkWorld (gate :: lt :: lp :: lk :: rest) out)
    = (Return (mkParams t p k),
       mkWorld rest (out ++ printed ++ map print_info (params_summary t p k)))
    /\ prompts printed = 4.
Proof.
  intros Hgate Ht Hp Hk. unfold ask_for_generation_params, bind.
  rewrite infos_run. cbn [stdin console].
  rewrite (ask_yes_no_answered _ _ _ _ _ _ Hgate).
  unfold negb. cbv beta iota. rewrite infos_run. cbn [stdin console].
  rewrite (ask_float_answered _ _ _ _ _ _ _ _ Ht).
  rewrite (ask_float_answered _ _ _ _ _ _ _ _ Hp).
  rewrite (ask_int_answered _ _ _ _ _ _ _ Hk).
  rewrite infos_run. cbn [stdin console]. unfold ret.
  match goal with
  | |- exists printed,
      (_, mkWorld _ (((((((_ ++ ?a) ++ ?b) ++ ?c) ++ ?d) ++ ?e) ++ ?f) ++ _))
      = _ /\ _ =>
      exists (a ++ b ++ c ++ d ++ e ++ f)%list
  end.
  split.
  - rewrite <- !app_assoc. reflexivity.
  - rewrite !prompts_app, !prompts_infos. reflexivity.
Qed.

(** Where the fields of a returned record come from. *)
Lemma returned_fields_origin
      current_temp current_top_p current_top_k w r w' :
  ask_for_generation_params float_of_str int_of_str
                            current_temp current_top_p current_top_k w
  = (Return r, w') ->
  (temperature r = current_temp
   \/ float_between 0.0 (temperature r) 2.0 = true)
  /\ (top_p r = current_top_p \/ float_between 0.0 (top_p r) 1.0 = true)
  /\ (top_k r = current_top_k \/ (0 <= top_k r)%Z).
Proof.
  unfold ask_for_generation_params, bind. rewrite infos_run.
  destruct (ask_yes_no _ _ _) as [[[|]|] w1]; [| | discriminate];
    unfold negb; cbv beta iota.
  - rewrite infos_run.
    destruct (ask_float _ _ current_temp _ _ _) as [[t|] w2] eqn:Et;
      [|discriminate].
    destruct (ask_float _ _ current_top_p _ _ _) as [[p|] w3] eqn:Ep;
      [|discriminate].
    destruct (ask_int _ _ current_top_k _ _) as [[k|] w4] eqn:Ek;
      [|discriminate].
    rewrite infos_run. intros H. injection H as <- _. simpl.
    apply ask_float_returned in Et, Ep. apply ask_int_returned in Ek. auto.
  - intros H. injection H as <- _. simpl. auto.
Qed.

(** X7.  Whatever the current values are, in range or not, each field of a
    returned record is either the current value handed in or a value that
    passed the range test of its prompt: nothing typed outside
    [[0.0, 2.0]], [[0.0, 1.0]] or below 0 is ever returned. *)
Theorem returned_fields_current_or_checked
        current_temp current_top_p current_top_k w r w' :
  ask_for_generation_params float_of_str int_of_str
                            current_temp current_top_p current_top_k w
  = (Return r, w') ->
  (temperature r = current_temp
   \/ float_between 0.0 (temperature r) 2.0 = true)
  /\ (top_p r = current_top_p \/ float_between 0.0 (top_p r) 1.0 = true)
  /\ (top_k r = current_top_k \/ (0 <= top_k r)%Z).
Proof. apply returned_fields_origin. Qed.

End Collecting.

(** ** Choosing a model *)

Lemma lookup_In k m d : lookup k d = Some m -> In (k, m) d.
Proof.
  induction d as [|[k' m'] d IH]; simpl; [discriminate|].
  destruct (k =? k') eqn:E; intros H.
  - apply String.eqb_eq in E. injection H as ->. subst. auto.
  - auto.
Qed.

Section Choosing.

Variable os_path_exists : string -> bool.
Variable expanduser : string -> string.

Lemma available_entry key m :
  In (key, m) (available_models os_path_exists expanduser) ->
  In (key, m) (models expanduser) /\ os_path_exists (path m) = true.
Proof. unfold available_models. rewrite filter_In. auto. Qed.

(** A selection comes out of the loop only through an available entry. *)
Lemma selected_entry w p n w' :
  ask_for_model_choice os_path_exists expanduser w = (Return (Some (p, n)), w') ->
  exists key m,
    In (key, m) (available_models os_path_exists expanduser)
    /\ path m = p /\ name m = n.
Proof.
  unfold ask_for_model_choice, bind. rewrite infos_run.
  destruct (available_models os_path_exists expanduser) as [|e available] eqn:Ea.
  - unfold error, info, emit, ret. simpl. discriminate.
  - rewrite infos_run. intros H.
    apply while_true_returned in H as (l & evs & _ & Hb).
    unfold choice_body in Hb. cbv zeta in Hb.
    destruct (strip l =? "0"); [discriminate|].
    destruct (lookup (strip l) (e :: available)) as [m|] eqn:Hl.
    + injection Hb as _ <- <-. exists (strip l), m.
      split; [|split]; try reflexivity. apply lookup_In, Hl.
    + destruct (lookup (strip l) (models expanduser)) as [m|];
        [|discriminate].
      destruct (negb (os_path_exists (path m))); discriminate.
Qed.

(** X8.  A first line that is 0, with or without whitespace around it,
    always gives no selection: when a model is available the line is read
    and answered so, and when none is the call has already returned without
    reading it. *)
Theorem zero_gives_no_selection line rest out :
  strip line = "0" ->
  let run := ask_for_model_choice os_path_exists expanduser
                                  (mkWorld (line :: rest) out) in
  fst run = Return None
  /\ stdin (snd run)
     = match available_models os_path_exists expanduser with
       | [] => line :: rest
       | _ :: _ => rest
       end.
Proof.
  intros H0 run. subst run. unfold ask_for_model_choice, bind.
  rewrite infos_run.
  destruct (available_models os_path_exists expanduser) as [|e available].
  - unfold error, info, emit, ret. simpl. auto.
  - rewrite infos_run. unfold loop. cbn [stdin console].
    assert (Hb : choice_body os_path_exists expanduser (e :: available) line
                 = ([print_info [Lit "Używam domyślnego modelu z .env..."]],
                    Some None))
      by (unfold choice_body; cbv zeta; rewrite H0; reflexivity).
    rewrite (while_true_return _ _ _ _ _ _ _ Hb). cbn [fst snd stdin]. auto.
Qed.

(** X9.  A selection that is returned is an entry of the catalogue, by path
    and by name, whose file exists. *)
Theorem selection_is_available_entry w p n w' :
  ask_for_model_choice os_path_exists expanduser w = (Return (Some (p, n)), w') ->
  exists key m,
    In (key, m) (models expanduser)
    /\ path m = p /\ name m = n /\ os_path_exists p = true.
Proof.
  intros H. apply selected_entry in H as (key & m & Hin & Hp & Hn).
  apply available_entry in Hin as [Hin He]. exists key, m.
  rewrite <- Hp. auto.
Qed.

(** X10.  A first line that is the key of a catalogue entry whose file
    exists selects that entry: its path and name are returned, the choice is
    confirmed on the console, and the lines after it are left unread. *)
Theorem available_key_selected line rest out m :
  lookup (strip line) (models expanduser) = Some m ->
  os_path_exists (path m) = true ->
  exists printed,
    ask_for_model_choice os_path_exists expanduser (mkWorld (line :: rest) out)
    = (Return (Some (path m, name m)),
       mkWorld rest
               (out ++ printed
                    ++ [Prompt choice_prompt;
                        print_info [Lit "\n✅ Wybrano: "; Lit (name m)]]))
    /\ prompts printed = 0.
Proof.
  intros Hm He.
  pose proof (lookup_filter (fun x => os_path_exists (path x)) _ _ _ Hm He)
    as Ha.
  change (lookup (strip line) (available_models os_path_exists expanduser)
          = Some m) in Ha.
  unfold ask_for_model_choice, bind. rewrite infos_run.
  destruct (available_models os_path_exists expanduser) as [|e available] eqn:Ea;
    rewrite ?Ea in Ha; [simpl in Ha; discriminate Ha|].
  rewrite infos_run. unfold loop. cbn [stdin console].
  assert (Hb : choice_body os_path_exists expanduser (e :: available) line
               = ([print_info [Lit "\n✅ Wybrano: "; Lit (name m)]],
                  Some (Some (path m, name m)))).
  { unfold choice_body. cbv zeta. rewrite Ha.
    destruct (strip line =? "0") eqn:E; [|reflexivity].
    apply String.eqb_eq in E. rewrite E in Hm. discriminate. }
  rewrite (while_true_return _ _ _ _ _ _ _ Hb).
  match goal with
  | |- exists printed, (_, mkWorld _ (((_ ++ ?a) ++ ?b) ++ _)) = _ /\ _ =>
      exists (a ++ b)%list
  end.
  split.
  - rewrite <- !app_assoc. reflexivity.
  - rewrite prompts_app, !prompts_infos. reflexivity.
Qed.


End Choosing.

(** ** Constructing a [LlamaConfig] *)

Lemma substring_whole s : substring 0 (String.length s) s = s.
Proof. induction s as [|c s IH]; simpl; [reflexivity | now rewrite IH]. Qed.

Lemma substring_skip pre m t :
  substring (String.length pre) m (pre ++ t) = substring 0 m t.
Proof. induction pre as [|c pre IH]; simpl; auto. Qed.

Lemma substring_split s k :
  k <= String.length s ->
  s = substring 0 k s ++ substring k (String.length s - k) s.
Proof.
  revert k. induction s as [|c s IH]; intros [|k] Hk; simpl in *;
    try reflexivity; try lia.
  - now rewrite substring_whole.
  - rewrite <- IH by lia. reflexivity.
Qed.

Lemma length_append a b :
  String.length (a ++ b) = String.length a + String.length b.
Proof. induction a as [|c a IH]; simpl; auto. Qed.

(** [endswith] holds exactly of the strings that are a stem followed by the
    suffix. *)
Lemma endswith_stem s suffix :
  endswith s suffix = true <-> exists stem, s = stem ++ suffix.
Proof.
  unfold endswith. rewrite andb_true_iff, Nat.leb_le, String.eqb_eq. split.
  - intros [Hle Hsub].
    exists (substring 0 (String.length s - String.length suffix) s).
    pose proof (substring_split s (String.length s - String.length suffix))
      as Hs.
    replace (String.length s - (String.length s - String.length suffix))
      with (String.length suffix) in Hs by lia.
    rewrite Hsub in Hs. apply Hs. lia.
  - intros [stem ->]. rewrite length_append. split; [lia|].
    replace (String.length stem + String.length suffix - String.length suffix)
      with (String.length stem) by lia.
    rewrite substring_skip. apply substring_whole.
Qed.

Lemma leb_nan_r x : PrimFloat.leb x nan = false.
Proof.
  rewrite leb_spec. unfold SFleb, SFcompare.
  change (Prim2SF nan) with S754_nan.
  destruct (Prim2SF x) as [s|s| |s m e]; try reflexivity;
    destruct s; reflexivity.
Qed.

Lemma check_literal_inr lit v v' :
  check_literal lit v = inr v' -> v' = v /\ v = lit.
Proof.
  unfold check_literal. destruct (v =? lit) eqn:E; [|discriminate].
  apply String.eqb_eq in E. intros H. injection H as <-. auto.
Qed.

Lemma check_int_ge_inr limit v v' :
  check_int_ge limit v = inr v' -> v' = v /\ (limit <= v)%Z.
Proof.
  unfold check_int_ge. destruct (v >=? limit)%Z eqn:E; [|discriminate].
  apply Z.geb_le in E. intros H. injection H as <-. auto.
Qed.

Lemma check_float_range_inr lo hi v v' :
  check_float_range lo hi v = inr v' ->
  v' = v /\ float_between lo v hi = true.
Proof.
  unfold check_float_range, float_between.
  destruct (PrimFloat.leb lo v); simpl; [|discriminate].
  destruct (PrimFloat.leb v hi); simpl; [|discriminate].
  intros H. injection H as <-. auto.
Qed.

Lemma check_int_ge_ok limit v :
  (limit <= v)%Z -> check_int_ge limit v = inr v.
Proof.
  intros H. unfold check_int_ge. apply Z.geb_le in H. rewrite H. reflexivity.
Qed.

Lemma check_float_range_ok lo hi v :
  float_between lo v hi = true -> check_float_range lo hi v = inr v.
Proof.
  unfold check_float_range, float_between. intros H.
  apply andb_true_iff in H as [-> ->]. reflexivity.
Qed.

Section Constructing.

Variable os_path_exists : string -> bool.

Lemma validate_model_path_inr v v' :
  validate_model_path os_path_exists v = inr v' ->
  v' = v /\ os_path_exists v = true /\ endswith v ".gguf" = true.
Proof.
  unfold validate_model_path.
  destruct (os_path_exists v); simpl; [|discriminate].
  destruct (endswith v ".gguf"); simpl; [|discriminate].
  intros H. injection H as <-. auto.
Qed.

(** A construction yields either a record, no field having an error, or
    the errors of its fields, of which there is at least one. *)
Lemma construction_cases raw :
  (exists config, LlamaConfig_new os_path_exists raw = inr config
                  /\ reported_errors os_path_exists raw = [])
  \/ (LlamaConfig_new os_path_exists raw
      = inl (reported_errors os_path_exists raw)
      /\ reported_errors os_path_exists raw <> []).
Proof.
  unfold LlamaConfig_new, reported_errors. cbv zeta.
  destruct (check_literal _ _); [right; split; [reflexivity | discriminate]|].
  destruct (required (raw_model_name raw));
    [right; split; [reflexivity | discriminate]|].
  destruct (then_check _ _); [right; split; [reflexivity | discriminate]|].
  destruct (check_int_ge (-1) _); [right; split; [reflexivity | discriminate]|].
  destruct (check_int_ge 1 _); [right; split; [reflexivity | discriminate]|].
  destruct (check_float_range 0 2 _);
    [right; split; [reflexivity | discriminate]|].
  destruct (check_float_range 0 1 _);
    [right; split; [reflexivity | discriminate]|].
  destruct (check_int_ge 0 _); [right; split; [reflexivity | discriminate]|].
  left. eexists. split; reflexivity.
Qed.

(** The checks behind a constructed record. *)
Lemma constructed_checks raw config :
  LlamaConfig_new os_path_exists raw = inr config ->
  check_literal "LLAMA" (with_default "LLAMA" (raw_engine raw))
  = inr (engine config)
  /\ required (raw_model_name raw) = inr (model_name config)
  /\ then_check (required (raw_llama_model_path raw))
                (validate_model_path os_path_exists)
     = inr (llama_model_path config)
  /\ check_int_ge (-1) (with_default 1%Z (raw_llama_gpu_layers raw))
     = inr (llama_gpu_layers config)
  /\ check_int_ge 1 (with_default 2048%Z (raw_llama_context_size raw))
     = inr (llama_context_size config)
  /\ check_float_range 0.0 2.0
       (with_default 0.7%float (raw_llama_temperature raw))
     = inr (llama_temperature config)
  /\ check_float_range 0.0 1.0 (with_default 0.9%float (raw_llama_top_p raw))
     = inr (llama_top_p config)
  /\ check_int_ge 0 (with_default 40%Z (raw_llama_top_k raw))
     = inr (llama_top_k config).
Proof.
  unfold LlamaConfig_new. cbv zeta.
  destruct (check_literal _ _); [discriminate|].
  destruct (required (raw_model_name raw)); [discriminate|].
  destruct (then_check _ _); [discriminate|].
  destruct (check_int_ge (-1) _); [discriminate|].
  destruct (check_int_ge 1 _); [discriminate|].
  destruct (check_float_range 0 2 _); [discriminate|].
  destruct (check_float_range 0 1 _); [discriminate|].
  destruct (check_int_ge 0 _); [discriminate|].
  intros H. injection H as <-. simpl. repeat split.
Qed.

Lemma path_check_inr r v' :
  then_check (required r) (validate_model_path os_path_exists) = inr v' ->
  r = Some v' /\ os_path_exists v' = true /\ endswith v' ".gguf" = true.
Proof.
  destruct r as [v|]; simpl; [|discriminate]. intros H.
  apply validate_model_path_inr in H as (-> & He & Hs). auto.
Qed.

(** X12.  Every record that is constructed satisfies the constraints of
    all its fields: the engine tag is LLAMA, the model file exists and ends
    in .gguf, the GPU layers are at least -1, the context size at least 1,
    the temperature within [[0.0, 2.0]], top_p within [[0.0, 1.0]] and top_k
    at least 0. *)
Theorem constructed_record_valid raw config :
  LlamaConfig_new os_path_exists raw = inr config ->
  engine config = "LLAMA"
  /\ os_path_exists (llama_model_path config) = true
  /\ endswith (llama_model_path config) ".gguf" = true
  /\ (-1 <= llama_gpu_layers config)%Z
  /\ (1 <= llama_context_size config)%Z
  /\ float_between 0.0 (llama_temperature config) 2.0 = true
  /\ float_between 0.0 (llama_top_p config) 1.0 = true
  /\ (0 <= llama_top_k config)%Z.
Proof.
  intros H.
  apply constructed_checks in H as (He & _ & Hp & Hg & Hc & Ht & Htp & Htk).
  apply check_literal_inr in He as [He1 He2].
  apply path_check_inr in Hp as (_ & Hex & Hsuf).
  apply check_int_ge_inr in Hg as [Hg1 Hg2].
  apply check_int_ge_inr in Hc as [Hc1 Hc2].
  apply check_float_range_inr in Ht as [Ht1 Ht2].
  apply check_float_range_inr in Htp as [Htp1 Htp2].
  apply check_int_ge_inr in Htk as [Htk1 Htk2].
  rewrite He1, Hg1, Hc1, Ht1, Htp1, Htk1. repeat split; assumption.
Qed.

(** X13.  In a constructed record, every optional field whose argument was
    left out holds the default declared for it: LLAMA for the engine, 1 GPU
    layer, a context size of 2048, temperature 0.7, top_p 0.9 and top_k
    40. *)
Theorem omitted_fields_take_defaults raw config :
  LlamaConfig_new os_path_exists raw = inr config ->
  (raw_engine raw = None -> engine config = "LLAMA")
  /\ (raw_llama_gpu_layers raw = None -> llama_gpu_layers config = 1%Z)
  /\ (raw_llama_context_size raw = None -> llama_context_size config = 2048%Z)
  /\ (raw_llama_temperature raw = None -> llama_temperature config = 0.7%float)
  /\ (raw_llama_top_p raw = None -> llama_top_p config = 0.9%float)
  /\ (raw_llama_top_k raw = None -> llama_top_k config = 40%Z).
Proof.
  intros H.
  apply constructed_checks in H as (He & _ & _ & Hg & Hc & Ht & Htp & Htk).
  apply check_literal_inr in He as [He _].
  apply check_int_ge_inr in Hg as [Hg _].
  apply check_int_ge_inr in Hc as [Hc _].
  apply check_float_range_inr in Ht as [Ht _].
  apply check_float_range_inr in Htp as [Htp _].
  apply check_int_ge_inr in Htk as [Htk _].
  repeat split; intros Hnone; rewrite Hnone in *; assumption.
Qed.

(** X14.  Constructing again from the fields of a constructed record gives
    the same record. *)
Theorem reconstruction_is_identity raw config :
  LlamaConfig_new os_path_exists raw = inr config ->
  LlamaConfig_new os_path_exists (raw_of_config config) = inr config.
Proof.
  intros H.
  apply constructed_checks in H as (He & _ & Hp & Hg & Hc & Ht & Htp & Htk).
  apply check_literal_inr in He as [He1 He].
  apply path_check_inr in Hp as (_ & Hex & Hsuf).
  apply check_int_ge_inr in Hg as [Hg1 Hg].
  apply check_int_ge_inr in Hc as [Hc1 Hc].
  apply check_float_range_inr in Ht as [Ht1 Ht].
  apply check_float_range_inr in Htp as [Htp1 Htp].
  apply check_int_ge_inr in Htk as [Htk1 Htk].
  rewrite <- He1 in He. rewrite <- Hg1 in Hg. rewrite <- Hc1 in Hc.
  rewrite <- Ht1 in Ht. rewrite <- Htp1 in Htp. rewrite <- Htk1 in Htk.
  clear He1 Hg1 Hc1 Ht1 Htp1 Htk1.
  destruct config as [e n p g c t tp tk].
  cbn [engine llama_model_path llama_gpu_layers llama_context_size
       llama_temperature llama_top_p llama_top_k] in *.
  subst e. unfold LlamaConfig_new, raw_of_config. cbv zeta.
  cbn [raw_engine raw_model_name raw_llama_model_path raw_llama_gpu_layers
       raw_llama_context_size raw_llama_temperature raw_llama_top_p
       raw_llama_top_k with_default required then_check
       engine model_name llama_model_path llama_gpu_layers llama_context_size
       llama_temperature llama_top_p llama_top_k].
  unfold validate_model_path. rewrite Hex, Hsuf.
  rewrite (check_int_ge_ok _ _ Hg), (check_int_ge_ok _ _ Hc),
    (check_float_range_ok _ _ _ Ht), (check_float_range_ok _ _ _ Htp),
    (check_int_ge_ok _ _ Htk).
  reflexivity.
Qed.

Lemma reported_fails raw field e :
  In (field, e) (reported_errors os_path_exists raw) ->
  fails_with os_path_exists raw field e.
Proof.
  intros Hin. destruct (construction_cases raw) as [(c & _ & Hnil)|[Hnew _]].
  - rewrite Hnil in Hin. contradiction.
  - exists (reported_errors os_path_exists raw). auto.
Qed.

Ltac report_field H :=
  apply reported_fails; unfold reported_errors; rewrite H;
  cbn [with_default required then_check];
  rewrite ?in_app_iff.

(** X15.  Leaving out the model name or the model path fails the
    construction, and the field is reported as missing whatever the other
    arguments are. *)
Theorem missing_required_field_reported raw :
  (raw_model_name raw = None ->
   fails_with os_path_exists raw "model_name" missing)
  /\ (raw_llama_model_path raw = None ->
      fails_with os_path_exists raw "llama_model_path" missing).
Proof.
  split; intros H; report_field H.
  - right. left. left. reflexivity.
  - right. right. left. left. reflexivity.
Qed.

(** X16.  An argument outside the range of its field fails the
    construction, and the violated bound is reported under that field
    whatever the other arguments are: a wrong engine tag, GPU layers below
    -1, a context size below 1, a temperature or top_p that is a number
    below 0.0 or above its upper bound, a top_k below 0.  (Which bound is
    reported for a NaN is left open.) *)
Theorem out_of_range_field_reported raw :
  (forall e, raw_engine raw = Some e -> e <> "LLAMA" ->
             fails_with os_path_exists raw "engine" literal_error)
  /\ (forall g, raw_llama_gpu_layers raw = Some g -> (g < -1)%Z ->
                fails_with os_path_exists raw "llama_gpu_layers"
                           (int_not_ge (-1)))
  /\ (forall c, raw_llama_context_size raw = Some c -> (c < 1)%Z ->
                fails_with os_path_exists raw "llama_context_size"
                           (int_not_ge 1))
  /\ (forall t, raw_llama_temperature raw = Some t ->
                PrimFloat.is_nan t = false ->
                PrimFloat.leb 0.0 t = false ->
                fails_with os_path_exists raw "llama_temperature"
                           (float_not_ge 0.0))
  /\ (forall t, raw_llama_temperature raw = Some t ->
                PrimFloat.leb 0.0 t = true -> PrimFloat.leb t 2.0 = false ->
                fails_with os_path_exists raw "llama_temperature"
                           (float_not_le 2.0))
  /\ (forall p, raw_llama_top_p raw = Some p ->
                PrimFloat.is_nan p = false ->
                PrimFloat.leb 0.0 p = false ->
                fails_with os_path_exists raw "llama_top_p" (float_not_ge 0.0))
  /\ (forall p, raw_llama_top_p raw = Some p ->
                PrimFloat.leb 0.0 p = true -> PrimFloat.leb p 1.0 = false ->
                fails_with os_path_exists raw "llama_top_p" (float_not_le 1.0))
  /\ (forall k, raw_llama_top_k raw = Some k -> (k < 0)%Z ->
                fails_with os_path_exists raw "llama_top_k" (int_not_ge 0)).
Proof.
  repeat split.
  - intros e H Hne. report_field H. left. unfold check_literal.
    apply String.eqb_neq in Hne. rewrite Hne. left. reflexivity.
  - intros g H Hlt. report_field H. do 3 right. left. unfold check_int_ge.
    replace (g >=? -1)%Z with false by (symmetry; rewrite Z.geb_leb; lia).
    left. reflexivity.
  - intros c H Hlt. report_field H. do 4 right. left. unfold check_int_ge.
    replace (c >=? 1)%Z with false by (symmetry; rewrite Z.geb_leb; lia).
    left. reflexivity.
  - intros t H _ Hlo. report_field H. do 5 right. left.
    unfold check_float_range. rewrite Hlo. left. reflexivity.
  - intros t H Hlo Hhi. report_field H. do 5 right. left.
    unfold check_float_range. rewrite Hlo, Hhi. left. reflexivity.
  - intros p H _ Hlo. report_field H. do 6 right. left.
    unfold check_float_range. rewrite Hlo. left. reflexivity.
  - intros p H Hlo Hhi. report_field H. do 6 right. left.
    unfold check_float_range. rewrite Hlo, Hhi. left. reflexivity.
  - intros k H Hlt. report_field H. do 7 right. unfold check_int_ge.
    replace (k >=? 0)%Z with false by (symmetry; rewrite Z.geb_leb; lia).
    left. reflexivity.
Qed.

(** X17.  A failed construction reports at least one error, and reports the
    failing fields once each and in the order of their declaration. *)
Theorem failure_reports_fields_in_order raw errors :
  LlamaConfig_new os_path_exists raw = inl errors ->
  errors <> [] /\ in_order (map fst errors) field_names = true.
Proof.
  intros H. destruct (construction_cases raw) as [(c & Hc & _)|[Hnew Hne]];
    [congruence|].
  rewrite Hnew in H. injection H as <-. split; [exact Hne|].
  unfold reported_errors.
  destruct (check_literal _ _), (required (raw_model_name raw)),
    (then_check _ _), (check_int_ge (-1) _), (check_int_ge 1 _),
    (check_float_range 0 2 _), (check_float_range 0 1 _), (check_int_ge 0 _);
    reflexivity.
Qed.

(** X18.  The model path validator accepts exactly the paths that exist and
    are some stem followed by .gguf, and hands them back unchanged. *)
Theorem model_path_accepted_iff v v' :
  validate_model_path os_path_exists v = inr v'
  <-> v' = v /\ os_path_exists v = true /\ exists stem, v = stem ++ ".gguf".
Proof.
  rewrite <- endswith_stem. split.
  - apply validate_model_path_inr.
  - intros (-> & He & Hs). unfold validate_model_path. rewrite He, Hs.
    reflexivity.
Qed.

(** With the other fields valid, parameters within their ranges give a
    valid construction. *)
Lemma params_in_range_accepted raw r :
  accepted (LlamaConfig_new os_path_exists raw) = true ->
  params_in_range r ->
  accepted (LlamaConfig_new os_path_exists (set_generation_params r raw)) = true.
Proof.
  intros H (Ht & Hp & Hk).
  destruct (LlamaConfig_new os_path_exists raw) as [errs|c] eqn:Hnew;
    [discriminate|].
  apply constructed_checks in Hnew as (He & Hn & Hpath & Hg & Hc & _).
  destruct raw as [e n p g cx t tp tk]. destruct r as [rt rp rk].
  unfold LlamaConfig_new, set_generation_params, set_top_k, set_top_p,
    set_temperature. cbv zeta.
  cbn [raw_engine raw_model_name raw_llama_model_path raw_llama_gpu_layers
       raw_llama_context_size raw_llama_temperature raw_llama_top_p
       raw_llama_top_k temperature top_p top_k] in *.
  rewrite He, Hn, Hpath, Hg, Hc. cbn [with_default].
  rewrite (check_float_range_ok _ _ _ Ht), (check_float_range_ok _ _ _ Hp),
    (check_int_ge_ok _ _ Hk).
  reflexivity.
Qed.

End Constructing.

(** ** Not-a-number, and the two files together *)

Section Together.

Variable float_of_str : string -> option float.
Variable int_of_str : string -> option Z.
Variable os_path_exists : string -> bool.

(** X19.  Not-a-number is never taken for a value in range: the bounded
    float prompt answers a line that parses as NaN with the range error and
    reads again, whatever the bounds. *)
Theorem nan_is_rejected question default min_val max_val line rest out :
  strip line <> "" ->
  float_of_str (strip line) = Some nan ->
  ask_float float_of_str question default min_val max_val
            (mkWorld (line :: rest) out)
  = ask_float float_of_str question default min_val max_val
              (mkWorld rest
                       (out ++ [Prompt (float_prompt question default);
                                print_error
                                  (float_range_error min_val max_val)])).
Proof.
  intros Hne Hnan.
  apply while_true_retry. unfold ask_float_body. cbv zeta.
  destruct (is_empty (strip line)) eqn:E;
    [apply is_empty_true in E; contradiction|].
  rewrite Hnan. unfold float_between. rewrite leb_nan_r. reflexivity.
Qed.

(** X20.  Parameters collected interactively from current values that lie
    in their ranges are accepted by [LlamaConfig]: put in place of the
    temperature, top_p and top_k of arguments that construct a record, they
    construct one too. *)
Theorem collected_params_accepted
        current_temp current_top_p current_top_k w r w' raw :
  params_in_range (mkParams current_temp current_top_p current_top_k) ->
  accepted (LlamaConfig_new os_path_exists raw) = true ->
  ask_for_generation_params float_of_str int_of_str
                            current_temp current_top_p current_top_k w
  = (Return r, w') ->
  accepted (LlamaConfig_new os_path_exists (set_generation_params r raw)) = true.
Proof.
  intros (Ht & Hp & Hk) Hraw Hrun. simpl in Ht, Hp, Hk.
  apply params_in_range_accepted; [assumption|].
  apply returned_fields_origin in Hrun as (Rt & Rp & Rk).
  repeat split.
  - destruct Rt as [->|Rt]; assumption.
  - destruct Rp as [->|Rp]; assumption.
  - destruct Rk as [->|Rk]; assumption.
Qed.

End Together.

(** ** Worked examples of the further properties *)

Lemma ask_yes_no_first_answer_witness :
  ask_yes_no "Dalej?" false (mkWorld ["co?"; "  "; "t"] [])
  = (Return false,
     mkWorld ["t"]
             [Prompt (yes_no_prompt "Dalej?" false); print_error yes_no_error;
              Prompt (yes_no_prompt "Dalej?" false)]).
Proof.
  apply (ask_yes_no_first_answer "Dalej?" false ["co?"] "  " ["t"] [] false).
  - repeat constructor.
  - reflexivity.
Defined.

Lemma bounded_prompts_first_answer_witness :
  ask_float Sample.float_of_str "T" 0.7 0.0 2.0
            (mkWorld ["abc"; "2.5"; ""; "1.5"] [])
  = (Return 0.7%float,
     mkWorld ["1.5"]
             [Prompt (float_prompt "T" 0.7); print_error float_parse_error;
              Prompt (float_prompt "T" 0.7);
              print_error (float_range_error 0.0 2.0);
              Prompt (float_prompt "T" 0.7)])
  /\ ask_int Sample.int_of_str "K" 40 0 (mkWorld ["-3"; " 7 "] [])
     = (Return 7%Z,
        mkWorld []
                [Prompt (int_prompt "K" 40); print_error (int_range_error 0);
                 Prompt (int_prompt "K" 40)]).
Proof.
  destruct (bounded_prompts_first_answer Sample.float_of_str Sample.int_of_str)
    as (Hfloat & Hint).
  split.
  - apply (Hfloat "T" 0.7%float 0.0%float 2.0%float ["abc"; "2.5"] ""
                  ["1.5"] [] 0.7%float).
    + repeat constructor.
    + reflexivity.
  - apply (Hint "K" 40%Z 0%Z ["-3"] " 7 " [] [] 7%Z).
    + repeat constructor.
    + reflexivity.
Defined.

Lemma configured_params_in_order_witness :
  exists printed,
    ask_for_generation_params Sample.float_of_str Sample.int_of_str
                              0.7 0.9 40
                              (mkWorld ["tak"; "1.5"; ""; "50"; "x"] [])
    = (Return (mkParams 1.5 0.9 50),
       mkWorld ["x"]
               ([] ++ printed ++ map print_info (params_summary 1.5 0.9 50)))
    /\ prompts printed = 4.
Proof.
  apply (configured_params_in_order
           Sample.float_of_str Sample.int_of_str 0.7 0.9 40
           "tak" "1.5" "" "50" ["x"] [] 1.5 0.9 50);
    reflexivity.
Defined.

Lemma returned_fields_current_or_checked_witness :
  (5.0%float = 5.0%float \/ float_between 0.0 5.0 2.0 = true)
  /\ (0.9%float = 1.5%float \/ float_between 0.0 0.9 1.0 = true)
  /\ ((-3)%Z = (-3)%Z \/ (0 <= -3)%Z).
Proof.
  apply (returned_fields_current_or_checked
           Sample.float_of_str Sample.int_of_str 5.0 1.5 (-3)
           (mkWorld ["t"; ""; "0.9"; ""] [])
           (mkParams 5.0 0.9 (-3))
           (snd (ask_for_generation_params
                   Sample.float_of_str Sample.int_of_str 5.0 1.5 (-3)
                   (mkWorld ["t"; ""; "0.9"; ""] [])))).
  reflexivity.
Defined.

Lemma zero_gives_no_selection_witness :
  fst (ask_for_model_choice Sample.os_path_exists Sample.expanduser
                            (mkWorld [" 0 "; "2"] []))
  = Return None
  /\ stdin (snd (ask_for_model_choice Sample.os_path_exists Sample.expanduser
                                      (mkWorld [" 0 "; "2"] [])))
     = ["2"].
Proof.
  apply (zero_gives_no_selection Sample.os_path_exists Sample.expanduser
                                 " 0 " ["2"] []).
  reflexivity.
Defined.

Lemma selection_is_available_entry_witness :
  exists key m,
    In (key, m) (models Sample.expanduser)
    /\ path m = "/home/azor/models/gemma-2-2b-it-Q8_0.gguf"
    /\ name m = "Gemma 2 2B Q8_0"
    /\ Sample.os_path_exists "/home/azor/models/gemma-2-2b-it-Q8_0.gguf" = true.
Proof.
  apply (selection_is_available_entry
           Sample.os_path_exists Sample.expanduser
           (mkWorld ["1"; "2"] [])
           "/home/azor/models/gemma-2-2b-it-Q8_0.gguf" "Gemma 2 2B Q8_0"
           (snd (ask_for_model_choice Sample.os_path_exists Sample.expanduser
                                      (mkWorld ["1"; "2"] [])))).
  reflexivity.
Defined.

Lemma available_key_selected_witness :
  exists printed,
    ask_for_model_choice Sample.os_path_exists Sample.expanduser
                         (mkWorld [" 2"; "3"] [])
    = (Return (Some ("/home/azor/models/gemma-2-2b-it-Q8_0.gguf",
                     "Gemma 2 2B Q8_0")),
       mkWorld ["3"]
               ([] ++ printed
                   ++ [Prompt choice_prompt;
                       print_info [Lit "\n✅ Wybrano: ";
                                   Lit "Gemma 2 2B Q8_0"]]))
    /\ prompts printed = 0.
Proof.
  apply (available_key_selected
           Sample.os_path_exists Sample.expanduser " 2" ["3"] []
           (mkModel "Gemma 2 2B Q8_0"
                    "/home/azor/models/gemma-2-2b-it-Q8_0.gguf"
                    "~2.3GB RAM" "⚡⚡ Szybki" "⭐⭐⭐⭐ Bardzo dobra jakość"));
    reflexivity.
Defined.


Lemma constructed_record_valid_witness :
  let config :=
    mkConfig "LLAMA" "gemma" "/home/azor/models/gemma-2-2b-it-Q8_0.gguf"
             1 2048 0.7 0.9 40 in
  engine config = "LLAMA"
  /\ Sample.os_path_exists (llama_model_path config) = true
  /\ endswith (llama_model_path config) ".gguf" = true
  /\ (-1 <= llama_gpu_layers config)%Z
  /\ (1 <= llama_context_size config)%Z
  /\ float_between 0.0 (llama_temperature config) 2.0 = true
  /\ float_between 0.0 (llama_top_p config) 1.0 = true
  /\ (0 <= llama_top_k config)%Z.
Proof.
  intros config.
  apply (constructed_record_valid Sample.os_path_exists Sample.raw config).
  reflexivity.
Defined.

Lemma omitted_fields_take_defaults_witness :
  let config :=
    mkConfig "LLAMA" "gemma" "/home/azor/models/gemma-2-2b-it-Q8_0.gguf"
             1 2048 0.7 0.9 40 in
  engine config = "LLAMA"
  /\ llama_gpu_layers config = 1%Z
  /\ llama_context_size config = 2048%Z
  /\ llama_temperature config = 0.7%float
  /\ llama_top_p config = 0.9%float
  /\ llama_top_k config = 40%Z.
Proof.
  intros config.
  destruct (omitted_fields_take_defaults Sample.os_path_exists Sample.raw
                                         config eq_refl)
    as (He & Hg & Hc & Ht & Hp & Hk).
  exact (conj (He eq_refl)
           (conj (Hg eq_refl)
              (conj (Hc eq_refl)
                 (conj (Ht eq_refl) (conj (Hp eq_refl) (Hk eq_refl)))))).
Defined.

Lemma reconstruction_is_identity_witness :
  let config :=
    mkConfig "LLAMA" "gemma" "/home/azor/models/gemma-2-2b-it-Q8_0.gguf"
             1 2048 0.7 0.9 40 in
  LlamaConfig_new Sample.os_path_exists (raw_of_config config) = inr config.
Proof.
  intros config.
  apply (reconstruction_is_identity Sample.os_path_exists Sample.raw config).
  reflexivity.
Defined.

Lemma missing_required_field_reported_witness :
  fails_with Sample.os_path_exists
             (mkRaw None None (Some "/tmp/absent.gguf") None None None None None)
             "model_name" missing
  /\ fails_with Sample.os_path_exists
                (mkRaw None (Some "gemma") None None None (Some 2.5%float)
                       None None)
                "llama_model_path" missing.
Proof.
  split.
  - apply (missing_required_field_reported Sample.os_path_exists
             (mkRaw None None (Some "/tmp/absent.gguf")
                    None None None None None)).
    reflexivity.
  - apply (missing_required_field_reported Sample.os_path_exists
             (mkRaw None (Some "gemma") None None None (Some 2.5%float)
                    None None)).
    reflexivity.
Defined.

Lemma out_of_range_field_reported_witness :
  let raw := set_gpu_layers (-2) (set_temperature 2.5 Sample.raw) in
  let raw' := set_top_p (-1.0) Sample.raw in
  fails_with Sample.os_path_exists raw "llama_gpu_layers" (int_not_ge (-1))
  /\ fails_with Sample.os_path_exists raw "llama_temperature"
                (float_not_le 2.0)
  /\ fails_with Sample.os_path_exists raw' "llama_top_p" (float_not_ge 0.0).
Proof.
  intros raw raw'.
  destruct (out_of_range_field_reported Sample.os_path_exists raw)
    as (_ & Hgpu & _ & _ & Htemp & _).
  destruct (out_of_range_field_reported Sample.os_path_exists raw')
    as (_ & _ & _ & _ & _ & Htop_p & _).
  split; [|split].
  - apply (Hgpu (-2)%Z); [reflexivity | lia].
  - apply (Htemp 2.5%float); reflexivity.
  - apply (Htop_p (-1.0)%float); reflexivity.
Defined.

Lemma failure_reports_fields_in_order_witness :
  [("llama_gpu_layers", int_not_ge (-1));
   ("llama_temperature", float_not_le 2.0)] <> []
  /\ in_order ["llama_gpu_layers"; "llama_temperature"] field_names = true.
Proof.
  apply (failure_reports_fields_in_order
           Sample.os_path_exists
           (set_gpu_layers (-2) (set_temperature 2.5 Sample.raw))
           [("llama_gpu_layers", int_not_ge (-1));
            ("llama_temperature", float_not_le 2.0)]).
  reflexivity.
Defined.

Lemma nan_is_rejected_witness :
  ask_float Sample.float_of_str "T" 0.7 0.0 2.0 (mkWorld ["nan"; "1.5"] [])
  = ask_float Sample.float_of_str "T" 0.7 0.0 2.0
              (mkWorld ["1.5"]
                       [Prompt (float_prompt "T" 0.7);
                        print_error (float_range_error 0.0 2.0)]).
Proof.
  apply (nan_is_rejected Sample.float_of_str
                         "T" 0.7%float 0.0%float 2.0%float "nan" ["1.5"] []).
  - discriminate.
  - reflexivity.
Defined.

Lemma collected_params_accepted_witness :
  accepted (LlamaConfig_new Sample.os_path_exists
              (set_generation_params (mkParams 1.5 0.9 50) Sample.raw))
  = true.
Proof.
  apply (collected_params_accepted
           Sample.float_of_str Sample.int_of_str Sample.os_path_exists
           0.7 0.9 40
           (mkWorld ["tak"; "1.5"; ""; "50"] [])
           (mkParams 1.5 0.9 50)
           (snd (ask_for_generation_params
                   Sample.float_of_str Sample.int_of_str 0.7 0.9 40
                   (mkWorld ["tak"; "1.5"; ""; "50"] [])))
           Sample.raw).
  - repeat split; simpl; lia.
  - reflexivity.
  - reflexivity.
Defined.
